(** * igl::vulkan::Texture: creation, staged uploads and the framebuffer
      view cache

    A shallow embedding of [src/igl/vulkan/Texture.cpp].  The texture object
    and the device it talks to are explicit states.  Every member function is
    a function from the state before the call to the result and the state
    after it.  A call whose behaviour is undefined in C++ (a null smart
    pointer dereferenced, a write outside a vector, a counter that can not
    reach its bound) yields [None]. *)

From Stdlib Require Import NArith ZArith Lia List Bool String.
From stdpp Require Import base list.
Import ListNotations.

Local Open Scope N_scope.

(** ** Machine integers *)

(** [(uint32_t)x], and the result of arithmetic done in [uint32_t]. *)
Definition u32 (x : N) : N := x mod 2 ^ 32.

(** Arithmetic done in [size_t] (64 bits). *)
Definition usize (x : N) : N := x mod 2 ^ 64.

(** [(int32_t)x] for an unsigned [x]. *)
Definition i32 (x : N) : Z :=
  let w := Z.of_N (u32 x) in
  if (w <? 2 ^ 31)%Z then w else (w - 2 ^ 32)%Z.

(** Unsigned 32-bit subtraction of two [uint32_t] values. *)
Definition u32_sub (a b : N) : N := u32 (a + 2 ^ 32 - b).

(** The largest value of an [int] loop counter. *)
Definition INT_MAX : N := 2 ^ 31 - 1.

(** ** Results *)

Module Result.
(** [RangeOutOfBounds] is the kind the specification gives to a range
    rejected by [validateRange]; the other codes are those
    [Texture.cpp] returns. *)
Inductive Code :=
| Ok
| ArgumentOutOfRange
| Unimplemented
| InvalidOperation
| RangeOutOfBounds.

Record t := mk { code : Code; message : string }.

Definition isOk (r : t) : bool :=
  match code r with Ok => true | _ => false end.
End Result.

(** [Result()] *)
Definition ResultOk : Result.t := Result.mk Result.Ok "".

(** ** Vulkan enumerations and flag bits (values of the Vulkan headers) *)

Inductive VkImageType := VK_IMAGE_TYPE_2D | VK_IMAGE_TYPE_3D.
Inductive VkImageViewType :=
  VK_IMAGE_VIEW_TYPE_2D | VK_IMAGE_VIEW_TYPE_3D | VK_IMAGE_VIEW_TYPE_CUBE.

Definition VkFormat := N.
Definition VK_FORMAT_UNDEFINED : VkFormat := 0.

Definition VK_IMAGE_USAGE_TRANSFER_SRC_BIT : N := 0x1.
Definition VK_IMAGE_USAGE_TRANSFER_DST_BIT : N := 0x2.
Definition VK_IMAGE_USAGE_SAMPLED_BIT : N := 0x4.
Definition VK_IMAGE_USAGE_STORAGE_BIT : N := 0x8.
Definition VK_IMAGE_USAGE_COLOR_ATTACHMENT_BIT : N := 0x10.
Definition VK_IMAGE_USAGE_DEPTH_STENCIL_ATTACHMENT_BIT : N := 0x20.

Definition VK_IMAGE_ASPECT_COLOR_BIT : N := 0x1.
Definition VK_IMAGE_ASPECT_DEPTH_BIT : N := 0x2.

Definition VK_IMAGE_CREATE_CUBE_COMPATIBLE_BIT : N := 0x10.
Definition VK_SAMPLE_COUNT_1_BIT : N := 0x1.
Definition VK_IMAGE_TILING_OPTIMAL : N := 0.
Definition VK_IMAGE_LAYOUT_UNDEFINED : N := 0.
Definition VK_REMAINING_MIP_LEVELS : N := 0xFFFFFFFF.

(** A Vulkan handle; [VK_NULL_HANDLE] is 0. *)
Definition VkHandle := N.
Definition VK_NULL_HANDLE : VkHandle := 0.

(** ** Descriptors *)

Definition TextureFormat := N.

(** The three enumerators [Texture::create] accepts; [Invalid] stands for
    every other enumerator of the type. *)
Inductive TextureType := Invalid | TwoD | ThreeD | Cube.

(** [Private] is the storage [Texture::create] tests for; [Shared] stands for
    every other enumerator of the type. *)
Inductive ResourceStorage := Private | Shared.

Module TextureDesc.
(** Modelled from the spec: the usage bit-set {Sampled, Storage, Attachment},
    whose header is absent: three distinct bits, none of them zero. *)
Module TextureUsageBits.
Definition Sampled : N := 0x1.
Definition Storage : N := 0x2.
Definition Attachment : N := 0x4.
End TextureUsageBits.

Record t := mk {
  type : TextureType;
  format : TextureFormat;
  width : N;
  height : N;
  depth : N;
  numLayers : N;
  numSamples : N;
  usage : N;
  numMipLevels : N;
  storage : ResourceStorage;
  debugName : string
}.

Definition with_numMipLevels (n : N) (d : t) : t :=
  mk (type d) (format d) (width d) (height d) (depth d) (numLayers d)
     (numSamples d) (usage d) n (storage d) (debugName d).

Definition with_usage (u : N) (d : t) : t :=
  mk (type d) (format d) (width d) (height d) (depth d) (numLayers d)
     (numSamples d) u (numMipLevels d) (storage d) (debugName d).
End TextureDesc.

Module TextureRangeDesc.
Record t := mk {
  x : N;
  y : N;
  z : N;
  width : N;
  height : N;
  depth : N;
  layer : N;
  numLayers : N;
  mipLevel : N;
  numMipLevels : N
}.
End TextureRangeDesc.

(** Modelled from the spec: the face enumeration "PosX..NegZ", whose header
    is absent, and the ordinal of a face in it. *)
Inductive TextureCubeFace := PosX | NegX | PosY | NegY | PosZ | NegZ.

Definition face_ordinal (f : TextureCubeFace) : N :=
  match f with
  | PosX => 0 | NegX => 1 | PosY => 2 | NegY => 3 | PosZ => 4 | NegZ => 5
  end.

(** ** Device objects *)

Record VkExtent3D := { extent_width : N; extent_height : N; extent_depth : N }.
Record VkOffset3D := { offset_x : Z; offset_y : Z; offset_z : Z }.
Record VkRect2D :=
  { rect_x : N; rect_y : N; rect_width : N; rect_height : N }.

(** [ivkGetRect2D(x, y, width, height)] *)
Definition ivkGetRect2D (x y width height : N) : VkRect2D :=
  {| rect_x := x; rect_y := y; rect_width := width; rect_height := height |}.

(** A [VulkanImage]: its handle and what [createImage] was given. *)
Record VulkanImage := {
  vkImage_ : VkHandle;
  type_ : VkImageType;
  extent_ : VkExtent3D;
  imageFormat_ : VkFormat;
  numLevels_ : N;
  numLayers_ : N;
  tiling_ : N;
  usageFlags_ : N;
  memFlags_ : N;
  createFlags_ : N;
  samples_ : N;
  imageName_ : string
}.

(** A [VulkanImageView]: its handle and what [createImageView] was given. *)
Record VulkanImageView := {
  vkImageView_ : VkHandle;
  viewImage_ : VkHandle;
  viewType_ : VkImageViewType;
  viewFormat_ : VkFormat;
  aspectMask_ : N;
  baseLevel_ : N;
  viewNumLevels_ : N;
  baseLayer_ : N;
  viewNumLayers_ : N;
  viewName_ : string
}.

(** [VulkanTexture]: an image with its primary view. *)
Record VulkanTexture := {
  image_ : VulkanImage;
  imageView_ : VulkanImageView
}.

(** ** Caller memory and staged transfers *)

(** Caller memory: a byte at every address.  A pointer is an address, the
    null pointer is address 0. *)
Definition Memory := N -> Byte.byte.

(** [n] bytes from address [p] on. *)
Definition read (mem : Memory) (p : N) (n : N) : list Byte.byte :=
  map (fun k => mem (p + N.of_nat k)) (seq 0 (N.to_nat n)).

(** The pointer the staging device is given: the caller's pointer, or the
    temporary vector [linearData] with the bytes it holds at the call. *)
Inductive UploadData :=
| CallerData (p : N)
| LinearData (buf : list Byte.byte).

(** One recorded call of the staging device. *)
Inductive Transfer :=
| imageData3D (image : VulkanImage) (offset : VkOffset3D) (extent : VkExtent3D)
              (format : VkFormat) (data : UploadData)
| imageData2D (image : VulkanImage) (imageRegion : VkRect2D)
              (mipLevel numMipLevels layer : N)
              (format : VkFormat) (data : UploadData).

(** The device: the images and views created so far and the transfers
    recorded by the staging device, oldest first. *)
Record DeviceState := {
  createdImages : list VulkanImage;
  createdViews : list VulkanImageView;
  stagedTransfers : list Transfer
}.

Definition freshHandle {A} (l : list A) : VkHandle := N.of_nat (length l) + 1.

(** ** The texture object *)

Record Texture := {
  desc_ : TextureDesc.t;
  texture_ : option VulkanTexture;
  imageViewForFramebuffer_ : list (option VulkanImageView)
}.

Definition set_desc_ (d : TextureDesc.t) (self : Texture) : Texture :=
  {| desc_ := d; texture_ := texture_ self;
     imageViewForFramebuffer_ := imageViewForFramebuffer_ self |}.

Definition set_texture_ (t : option VulkanTexture) (self : Texture) : Texture :=
  {| desc_ := desc_ self; texture_ := t;
     imageViewForFramebuffer_ := imageViewForFramebuffer_ self |}.

Definition set_imageViewForFramebuffer_
    (c : list (option VulkanImageView)) (self : Texture) : Texture :=
  {| desc_ := desc_ self; texture_ := texture_ self;
     imageViewForFramebuffer_ := c |}.

(** ** What the texture code calls and this file does not define

    Format tables, size helpers and the device's answers are declared
    elsewhere in the library; the texture code is generic in them. *)
Class Externals := {
  isDepthOrStencilFormat : TextureFormat -> bool;
  getClosestDepthStencilFormat : TextureFormat -> VkFormat;
  textureFormatToVkFormat : TextureFormat -> VkFormat;
  vkFormatToTextureFormat : VkFormat -> TextureFormat;
  isCompressedTextureFormat : TextureFormat -> bool;
  toBytesPerBlock : TextureFormat -> N;
  getBytesPerPixel : VkFormat -> N;
  getTextureBytesPerSlice : N -> N -> N -> TextureFormat -> N -> N;
  (** number of bits of the unsigned integer type that
      [getTextureBytesPerSlice] returns, whose declaration is not among
      the sources; [auto byteIncrement] in [Texture::upload] has that
      type *)
  sliceBytesBits : N;
  calcNumMipLevels : N -> N -> N;
  getVulkanSampleCountFlags : N -> N;
  resourceStorageToVkMemoryPropertyFlags : ResourceStorage -> N;
  (** value of the enumerator [TextureCubeFace::PosX]; the six faces are
      numbered consecutively from it *)
  PosX_value : N;
  (** what the device answers to [createImage]: the result it reports and
      whether the returned pointer is non-null *)
  createImageOutcome : DeviceState -> VulkanImage -> Result.t * bool;
  (** whether [createImageView] returns a non-null pointer *)
  createImageViewOutcome : DeviceState -> VulkanImageView -> bool
}.

Section TextureCode.
Context {ext : Externals}.

(** ** Device calls *)

(** [ctx.createImage(...)]: the image exists on the device when the returned
    pointer is non-null. *)
Definition createImage (dev : DeviceState) (imageType : VkImageType)
    (extent : VkExtent3D) (format : VkFormat) (mipLevels arrayLayers : N)
    (tiling usageFlags memFlags createFlags samples : N) (debugName : string)
    : Result.t * option VulkanImage * DeviceState :=
  let img := {| vkImage_ := freshHandle (createdImages dev);
                type_ := imageType; extent_ := extent; imageFormat_ := format;
                numLevels_ := mipLevels; numLayers_ := arrayLayers;
                tiling_ := tiling; usageFlags_ := usageFlags;
                memFlags_ := memFlags; createFlags_ := createFlags;
                samples_ := samples; imageName_ := debugName |} in
  let '(result, nonnull) := createImageOutcome dev img in
  if nonnull
  then (result, Some img,
        {| createdImages := createdImages dev ++ [img];
           createdViews := createdViews dev;
           stagedTransfers := stagedTransfers dev |})
  else (result, None, dev).

(** [image.createImageView(type, format, aspect, baseLevel, numLevels,
    baseLayer, numLayers, debugName)] *)
Definition createImageView (dev : DeviceState) (image : VulkanImage)
    (type : VkImageViewType) (format : VkFormat) (aspectMask : N)
    (baseLevel numLevels baseLayer numLayers : N) (debugName : string)
    : option VulkanImageView * DeviceState :=
  let view := {| vkImageView_ := freshHandle (createdViews dev);
                 viewImage_ := vkImage_ image;
                 viewType_ := type; viewFormat_ := format;
                 aspectMask_ := aspectMask; baseLevel_ := baseLevel;
                 viewNumLevels_ := numLevels; baseLayer_ := baseLayer;
                 viewNumLayers_ := numLayers; viewName_ := debugName |} in
  if createImageViewOutcome dev view
  then (Some view,
        {| createdImages := createdImages dev;
           createdViews := createdViews dev ++ [view];
           stagedTransfers := stagedTransfers dev |})
  else (None, dev).

(** [ctx.createTexture(image, imageView)] *)
Definition createTexture (image : VulkanImage) (imageView : VulkanImageView)
    : option VulkanTexture :=
  Some {| image_ := image; imageView_ := imageView |}.

(** Modelled from the spec: [VulkanImage::getImageAspectFlags], whose source
    file is absent.  The attachment view has "the same aspect as the
    resource's primary view", and the primary view is created "matching
    aspect (depth vs color)": depth for an image with depth-stencil
    attachment usage, colour otherwise. *)
Definition getImageAspectFlags (image : VulkanImage) : N :=
  if N.land (usageFlags_ image) VK_IMAGE_USAGE_DEPTH_STENCIL_ATTACHMENT_BIT =? 0
  then VK_IMAGE_ASPECT_COLOR_BIT
  else VK_IMAGE_ASPECT_DEPTH_BIT.

(** [staging.imageData2D(...)] and [staging.imageData3D(...)] record the
    transfer. *)
Definition stage (t : Transfer) (dev : DeviceState) : DeviceState :=
  {| createdImages := createdImages dev;
     createdViews := createdViews dev;
     stagedTransfers := stagedTransfers dev ++ [t] |}.

(** ** Getters *)

Definition getDimensions (self : Texture) : N * N * N :=
  (TextureDesc.width (desc_ self), TextureDesc.height (desc_ self),
   TextureDesc.depth (desc_ self)).

Definition getVkFormat (self : Texture) : VkFormat :=
  match texture_ self with
  | Some t => imageFormat_ (image_ t)
  | None => VK_FORMAT_UNDEFINED
  end.

Definition getNumLayers (self : Texture) : N := TextureDesc.numLayers (desc_ self).
Definition getType (self : Texture) : TextureType := TextureDesc.type (desc_ self).
Definition getUsage (self : Texture) : N := TextureDesc.usage (desc_ self).
Definition getSamples (self : Texture) : N := TextureDesc.numSamples (desc_ self).
Definition getNumMipLevels (self : Texture) : N :=
  TextureDesc.numMipLevels (desc_ self).

Definition getVkImageView (self : Texture) : VkHandle :=
  match texture_ self with
  | Some t => vkImageView_ (imageView_ t)
  | None => VK_NULL_HANDLE
  end.

Definition getVkImage (self : Texture) : VkHandle :=
  match texture_ self with
  | Some t => vkImage_ (image_ t)
  | None => VK_NULL_HANDLE
  end.

(** ** [Texture::create] *)

Definition supportedType (type : TextureType) : bool :=
  match type with TwoD | Cube | ThreeD => true | Invalid => false end.

Definition formatName (prefix debugName : string) : string :=
  if String.eqb debugName "" then ""%string else String.append prefix debugName.

(** The local [usageFlags] of [Texture::create], computed from the
    normalized descriptor [d]. *)
Definition imageUsageFlags (d : TextureDesc.t) : N :=
  let usageFlags :=
    match TextureDesc.storage d with
    | Private => VK_IMAGE_USAGE_TRANSFER_DST_BIT
    | _ => 0
    end in
  let usageFlags :=
    if N.land (TextureDesc.usage d) TextureDesc.TextureUsageBits.Sampled =? 0
    then usageFlags
    else N.lor usageFlags VK_IMAGE_USAGE_SAMPLED_BIT in
  let usageFlags :=
    if N.land (TextureDesc.usage d) TextureDesc.TextureUsageBits.Storage =? 0
    then usageFlags
    else N.lor usageFlags VK_IMAGE_USAGE_STORAGE_BIT in
  let usageFlags :=
    if N.land (TextureDesc.usage d) TextureDesc.TextureUsageBits.Attachment =? 0
    then usageFlags
    else N.lor usageFlags
           (if isDepthOrStencilFormat (TextureDesc.format d)
            then VK_IMAGE_USAGE_DEPTH_STENCIL_ATTACHMENT_BIT
            else VK_IMAGE_USAGE_COLOR_ATTACHMENT_BIT) in
  N.lor usageFlags VK_IMAGE_USAGE_TRANSFER_SRC_BIT.

(** [Texture::create(desc)].  The assertions ([IGL_ASSERT_MSG], the
    assertion inside [IGL_VERIFY]) do nothing in a release build and are left
    out; [IGL_VERIFY(c)] is [c]. *)
Definition create (dev : DeviceState) (self : Texture) (desc : TextureDesc.t)
    : Result.t * Texture * DeviceState :=
  let self := set_desc_ desc self in
  let vkFormat :=
    if isDepthOrStencilFormat (TextureDesc.format (desc_ self))
    then getClosestDepthStencilFormat (TextureDesc.format (desc_ self))
    else textureFormatToVkFormat (TextureDesc.format (desc_ self)) in
  let type := TextureDesc.type (desc_ self) in
  if negb (supportedType type)
  then (Result.mk Result.Unimplemented "", self, dev)
  else
  let self :=
    if TextureDesc.numMipLevels (desc_ self) =? 0
    then set_desc_ (TextureDesc.with_numMipLevels 1 (desc_ self)) self
    else self in
  if (1 <? TextureDesc.numSamples desc)
     && negb (TextureDesc.numMipLevels (desc_ self) =? 1)
  then (Result.mk Result.ArgumentOutOfRange
          "The number of mip levels for multisampled images should be 1",
        self, dev)
  else
  if (1 <? TextureDesc.numSamples desc)
     && match type with ThreeD => true | _ => false end
  then (Result.mk Result.ArgumentOutOfRange
          "Multisampled 3D images are not supported", self, dev)
  else
  if negb (TextureDesc.numMipLevels (desc_ self)
             <=? calcNumMipLevels (TextureDesc.width (desc_ self))
                                  (TextureDesc.height (desc_ self)))
  then (Result.mk Result.ArgumentOutOfRange
          "The number of specified mip levels is greater than the maximum possible number of mip levels.",
        self, dev)
  else
  let self :=
    if TextureDesc.usage (desc_ self) =? 0
    then set_desc_ (TextureDesc.with_usage
                      TextureDesc.TextureUsageBits.Sampled (desc_ self)) self
    else self in
  let d := desc_ self in
  let usageFlags := imageUsageFlags d in
  let memFlags := resourceStorageToVkMemoryPropertyFlags (TextureDesc.storage d) in
  let debugNameImage := formatName "Image: " (TextureDesc.debugName d) in
  let debugNameImageView := formatName "Image View: " (TextureDesc.debugName d) in
  let arrayLayerCount := u32 (TextureDesc.numLayers d) in
  match
    match TextureDesc.type d with
    | TwoD => Some (0, arrayLayerCount, VK_IMAGE_VIEW_TYPE_2D, VK_IMAGE_TYPE_2D,
                    getVulkanSampleCountFlags (TextureDesc.numSamples d))
    | ThreeD => Some (0, arrayLayerCount, VK_IMAGE_VIEW_TYPE_3D,
                      VK_IMAGE_TYPE_3D, VK_SAMPLE_COUNT_1_BIT)
    | Cube => Some (VK_IMAGE_CREATE_CUBE_COMPATIBLE_BIT, u32 (arrayLayerCount * 6),
                    VK_IMAGE_VIEW_TYPE_CUBE, VK_IMAGE_TYPE_2D,
                    VK_SAMPLE_COUNT_1_BIT)
    | Invalid => None
    end
  with
  | None =>
    (Result.mk Result.Unimplemented "Unimplemented or unsupported texture type.",
     self, dev)
  | Some (createFlags, arrayLayerCount, imageViewType, imageType, samples) =>
  let '(result, image, dev) :=
    createImage dev imageType
      {| extent_width := u32 (TextureDesc.width d);
         extent_height := u32 (TextureDesc.height d);
         extent_depth := u32 (TextureDesc.depth d) |}
      vkFormat (u32 (TextureDesc.numMipLevels d)) arrayLayerCount
      VK_IMAGE_TILING_OPTIMAL usageFlags memFlags createFlags samples
      debugNameImage in
  if negb (Result.isOk result) then (result, self, dev) else
  match image with
  | None => (Result.mk Result.InvalidOperation "Cannot create VulkanImage", self, dev)
  | Some image =>
    let aspect :=
      if N.land usageFlags VK_IMAGE_USAGE_DEPTH_STENCIL_ATTACHMENT_BIT =? 0
      then VK_IMAGE_ASPECT_COLOR_BIT
      else VK_IMAGE_ASPECT_DEPTH_BIT in
    let '(imageView, dev) :=
      createImageView dev image imageViewType vkFormat aspect
        0 VK_REMAINING_MIP_LEVELS 0 arrayLayerCount debugNameImageView in
    match imageView with
    | None =>
      (Result.mk Result.InvalidOperation "Cannot create VulkanImageView", self, dev)
    | Some imageView =>
      (ResultOk, set_texture_ (createTexture image imageView) self, dev)
    end
  end
  end.

(** ** [ITexture::validateRange] *)

(** Extent of a dimension at a mip level: halved per level, never below 1. *)
Definition mipDimension (dim level : N) : N := N.max (N.shiftr dim level) 1.

(** Layers of the image: the layer count, times 6 for a cube. *)
Definition layerCount (self : Texture) : N :=
  match getType self with
  | Cube => getNumLayers self * 6
  | _ => getNumLayers self
  end.

(** Modelled from the spec: [ITexture::validateRange], whose source file is
    absent.  "offset+extent must not exceed the image's dimensions at the
    addressed mip level; layer+count must not exceed the image's layer count
    (x6 for cube)"; a range that escapes is rejected with
    [RangeOutOfBounds].  Both callers drop the second component of the
    returned pair, which is left out. *)
Definition rangeInBounds (self : Texture) (range : TextureRangeDesc.t) : bool :=
  let '(w, h, d) := getDimensions self in
  let level := TextureRangeDesc.mipLevel range in
  (TextureRangeDesc.x range + TextureRangeDesc.width range <=? mipDimension w level)
  && (TextureRangeDesc.y range + TextureRangeDesc.height range <=? mipDimension h level)
  && (TextureRangeDesc.z range + TextureRangeDesc.depth range <=? mipDimension d level)
  && (TextureRangeDesc.layer range + TextureRangeDesc.numLayers range
        <=? layerCount self).

Definition validateRange (self : Texture) (range : TextureRangeDesc.t) : Result.t :=
  if rangeInBounds self range then ResultOk
  else Result.mk Result.RangeOutOfBounds "".

(** ** [Texture::upload] *)

(** [memcpy(dst.data() + off, src, length src)] into a vector: writing past
    its end is undefined. *)
Definition memcpy (dst : list Byte.byte) (off : N) (src : list Byte.byte)
    : option (list Byte.byte) :=
  if off + N.of_nat (length src) <=? N.of_nat (length dst)
  then Some (take (N.to_nat off) dst ++ src
             ++ drop (N.to_nat off + length src) dst)
  else None.

(** The row loop [for (uint32_t h = 0; h < desc_.height; h++) memcpy(...)],
    from row [h] on with [rows] rows to go. *)
Fixpoint repackRows (mem : Memory) (data bytesPerRow imageRowWidth : N)
    (rows : nat) (h : N) (linearData : list Byte.byte)
    : option (list Byte.byte) :=
  match rows with
  | O => Some linearData
  | S rows' =>
    match memcpy linearData (usize (h * imageRowWidth))
                 (read mem (data + usize (h * bytesPerRow)) imageRowWidth) with
    | None => None
    | Some linearData' =>
      repackRows mem data bytesPerRow imageRowWidth rows' (h + 1) linearData'
    end
  end.

(** The whole row loop.  Its [uint32_t] counter never reaches a height of
    2^32 or more. *)
Definition repack (mem : Memory) (self : Texture)
    (data bytesPerRow imageRowWidth : N) (linearData : list Byte.byte)
    : option (list Byte.byte) :=
  if 2 ^ 32 <=? TextureDesc.height (desc_ self) then None
  else repackRows mem data bytesPerRow imageRowWidth
         (N.to_nat (TextureDesc.height (desc_ self))) 0 linearData.

(** A value of the type of [byteIncrement], the unsigned integer type that
    [getTextureBytesPerSlice] returns: arithmetic in it wraps around. *)
Definition sliceBytes (x : N) : N := x mod 2 ^ sliceBytesBits.

(** [for (auto i = 1; i < range.numMipLevels; ++i) byteIncrement += ...],
    from level [i] on with [levels] levels to go. *)
Fixpoint addMipSlices (desc : TextureDesc.t) (range : TextureRangeDesc.t)
    (levels : nat) (i : N) (byteIncrement : N) : N :=
  match levels with
  | O => byteIncrement
  | S levels' =>
    addMipSlices desc range levels' (i + 1)
      (sliceBytes
         (byteIncrement
          + getTextureBytesPerSlice (TextureRangeDesc.width range)
              (TextureRangeDesc.height range) (TextureRangeDesc.depth range)
              (TextureDesc.format desc) i))
  end.

(** The transfer of one layer: the 3D copy for a volumetric image, the 2D
    copy otherwise. *)
Definition layerTransfer (self : Texture) (t : VulkanTexture)
    (range : TextureRangeDesc.t) (i : N) (uploadData : UploadData) : Transfer :=
  match type_ (image_ t) with
  | VK_IMAGE_TYPE_3D =>
    imageData3D (image_ t)
      {| offset_x := i32 (TextureRangeDesc.x range);
         offset_y := i32 (TextureRangeDesc.y range);
         offset_z := i32 (TextureRangeDesc.z range) |}
      {| extent_width := u32 (TextureRangeDesc.width range);
         extent_height := u32 (TextureRangeDesc.height range);
         extent_depth := u32 (TextureRangeDesc.depth range) |}
      (getVkFormat self) uploadData
  | VK_IMAGE_TYPE_2D =>
    imageData2D (image_ t)
      (ivkGetRect2D (u32 (TextureRangeDesc.x range)) (u32 (TextureRangeDesc.y range))
         (u32 (TextureRangeDesc.width range)) (u32 (TextureRangeDesc.height range)))
      (u32 (TextureRangeDesc.mipLevel range))
      (u32 (TextureRangeDesc.numMipLevels range))
      (u32 (u32 (TextureRangeDesc.layer range) + i))
      (getVkFormat self) uploadData
  end.

(** The layer loop [for (auto i = 0; i < numLayers; ++i) ...], from layer
    [i] on with [layers] layers to go; [data] is the advancing source
    pointer, a 64-bit address. *)
Fixpoint uploadLayers (mem : Memory) (self : Texture)
    (range : TextureRangeDesc.t) (isAligned : bool)
    (imageRowWidth bytesPerRow byteIncrement : N)
    (layers : nat) (i : N) (data : N) (linearData : list Byte.byte)
    (dev : DeviceState) : option DeviceState :=
  match layers with
  | O => Some dev
  | S layers' =>
    match
      (if isAligned then Some (CallerData data, linearData)
       else match repack mem self data bytesPerRow imageRowWidth linearData with
            | Some l => Some (LinearData l, l)
            | None => None
            end)
    with
    | None => None
    | Some (uploadData, linearData) =>
      match texture_ self with
      | None => None
      | Some t =>
        uploadLayers mem self range isAligned imageRowWidth bytesPerRow
          byteIncrement layers' (i + 1) (usize (data + byteIncrement))
          linearData
          (stage (layerTransfer self t range i uploadData) dev)
      end
    end
  end.

(** The locals [bytesPerPixel], [imageRowWidth], [isAligned], [numLayers] and
    [byteIncrement] of [Texture::upload]. *)
Definition bytesPerPixel (self : Texture) : N :=
  if isCompressedTextureFormat (vkFormatToTextureFormat (getVkFormat self))
  then toBytesPerBlock (vkFormatToTextureFormat (getVkFormat self))
  else getBytesPerPixel (getVkFormat self).

Definition imageRowWidth (self : Texture) : N :=
  usize (TextureDesc.width (desc_ self) * bytesPerPixel self).

Definition isAligned (self : Texture) (bytesPerRow : N) : bool :=
  isCompressedTextureFormat (vkFormatToTextureFormat (getVkFormat self))
  || (bytesPerRow =? 0) || (imageRowWidth self =? bytesPerRow).

Definition numLayers (range : TextureRangeDesc.t) : N :=
  N.max (TextureRangeDesc.numLayers range) 1.

Definition byteIncrement (self : Texture) (range : TextureRangeDesc.t) : N :=
  addMipSlices (desc_ self) range
    (N.to_nat (TextureRangeDesc.numMipLevels range) - 1) 1
    (if 1 <? numLayers range
     then sliceBytes
            (getTextureBytesPerSlice (TextureRangeDesc.width range)
               (TextureRangeDesc.height range) (TextureRangeDesc.depth range)
               (TextureDesc.format (desc_ self)) 0)
     else 0).

(** [Texture::upload(range, data, bytesPerRow)].  The [int] counters of the
    two loops overflow, which is undefined, when their bounds exceed
    [INT_MAX].  [byteIncrement] has the unsigned type the absent size
    helper returns, and its sum wraps around in that type; the source
    pointer it is added to is a 64-bit address. *)
Definition upload (mem : Memory) (dev : DeviceState) (self : Texture)
    (range : TextureRangeDesc.t) (data : N) (bytesPerRow : N)
    : option (Result.t * DeviceState) :=
  if data =? 0 then Some (ResultOk, dev) else
  let result := validateRange self range in
  if negb (Result.isOk result) then Some (result, dev) else
  let linearData :=
    if isAligned self bytesPerRow then []
    else replicate
           (N.to_nat (usize (imageRowWidth self * TextureDesc.height (desc_ self))))
           Byte.x00 in
  if INT_MAX <? TextureRangeDesc.numMipLevels range then None else
  if INT_MAX <? numLayers range then None else
  match uploadLayers mem self range (isAligned self bytesPerRow)
          (imageRowWidth self) bytesPerRow (byteIncrement self range)
          (N.to_nat (numLayers range)) 0 data linearData dev with
  | None => None
  | Some dev => Some (ResultOk, dev)
  end.

(** ** [Texture::uploadCube] *)

(** [(uint32_t)face] *)
Definition faceValue (face : TextureCubeFace) : N :=
  u32 (PosX_value + face_ordinal face).

Definition uploadCube (dev : DeviceState) (self : Texture)
    (range : TextureRangeDesc.t) (face : TextureCubeFace) (data : N)
    (bytesPerRow : N) : option (Result.t * DeviceState) :=
  let result := validateRange self range in
  if negb (Result.isOk result) then Some (result, dev) else
  match texture_ self with
  | None => None
  | Some t =>
    Some (ResultOk,
          stage (imageData2D (image_ t)
                   (ivkGetRect2D (u32 (TextureRangeDesc.x range))
                      (u32 (TextureRangeDesc.y range))
                      (u32 (TextureRangeDesc.width range))
                      (u32 (TextureRangeDesc.height range)))
                   (u32 (TextureRangeDesc.mipLevel range))
                   (u32 (TextureRangeDesc.numMipLevels range))
                   (u32_sub (faceValue face) (faceValue PosX))
                   (getVkFormat self) (CallerData data))
                dev)
  end.

(** ** [Texture::getVkImageViewForFramebuffer] *)

Definition getVkImageViewForFramebuffer (dev : DeviceState) (self : Texture)
    (level : N) : option (VkHandle * Texture * DeviceState) :=
  let cache := imageViewForFramebuffer_ self in
  match cache !! N.to_nat level with
  | Some (Some view) => Some (vkImageView_ view, self, dev)
  | _ =>
    let cache :=
      if N.of_nat (length cache) <=? level
      then resize (N.to_nat (u32 (level + 1))) None cache
      else cache in
    match texture_ self with
    | None => None
    | Some t =>
      let flags := getImageAspectFlags (image_ t) in
      let '(view, dev) :=
        createImageView dev (image_ t) VK_IMAGE_VIEW_TYPE_2D
          (textureFormatToVkFormat (TextureDesc.format (desc_ self)))
          flags level 1 0 1 "" in
      if N.of_nat (length cache) <=? level then None
      else
        match view with
        | None => None
        | Some v =>
          Some (vkImageView_ v,
                set_imageViewForFramebuffer_ (<[N.to_nat level := Some v]> cache) self,
                dev)
        end
    end
  end.

End TextureCode.

(** ** Observations on transfers and sequences of calls *)


(** The view cached for a mip level, if there is one: an index outside the
    vector and a null entry both mean none. *)
Definition cachedView (self : Texture) (level : N) : option VulkanImageView :=
  match imageViewForFramebuffer_ self !! N.to_nat level with
  | Some (Some view) => Some view
  | _ => None
  end.

(** Destination layer of a 2D copy. *)
Definition transferLayer (t : Transfer) : option N :=
  match t with
  | imageData2D _ _ _ _ layer _ _ => Some layer
  | imageData3D _ _ _ _ _ => None
  end.

(** The transfers recorded on the device a call leaves behind, none when
    the call does not return. *)
Definition stagedAfter (outcome : option (Result.t * DeviceState))
    : list Transfer :=
  match outcome with
  | Some (_, dev) => stagedTransfers dev
  | None => []
  end.

(** The indices [0, 1, ..., n-1] of a counting loop. *)
Definition indices (n : nat) : list N := map N.of_nat (seq 0 n).

(** The source pointer of the layer loop after [k] layers:
    [data = data + byteIncrement], [k] times, in 64-bit addresses. *)
Fixpoint sourcePointer (data byteIncrement : N) (k : nat) : N :=
  match k with
  | O => data
  | S k' => sourcePointer (usize (data + byteIncrement)) byteIncrement k'
  end.

(** The source pointer of a recorded transfer. *)
Definition transferData (t : Transfer) : UploadData :=
  match t with
  | imageData2D _ _ _ _ _ _ data => data
  | imageData3D _ _ _ _ data => data
  end.

Section Sequences.
Context {ext : Externals}.


(** [getVkImageViewForFramebuffer] called for each of [levels] in turn. *)
Fixpoint getViews (dev : DeviceState) (self : Texture) (levels : list N)
    : option (Texture * DeviceState) :=
  match levels with
  | [] => Some (self, dev)
  | level :: levels' =>
    match getVkImageViewForFramebuffer dev self level with
    | Some (_, self', dev') => getViews dev' self' levels'
    | None => None
    end
  end.

(** Several transfers recorded one after the other. *)
Definition stageAll (ts : list Transfer) (dev : DeviceState) : DeviceState :=
  fold_left (fun d t => stage t d) ts dev.

(** [rows] rows of [imageRowWidth] bytes each, taken from the source at
    [data] every [bytesPerRow] bytes from row [h] on, one after the other
    without padding. *)
Fixpoint packedRows (mem : Memory) (data bytesPerRow imageRowWidth : N)
    (rows : nat) (h : N) : list Byte.byte :=
  match rows with
  | O => []
  | S rows' =>
    read mem (data + usize (h * bytesPerRow)) imageRowWidth
    ++ packedRows mem data bytesPerRow imageRowWidth rows' (h + 1)
  end.

(** What the staging device is handed for a layer whose source starts at
    [p]: the pointer [p] itself on the aligned path, the repacked rows read
    from [p] on otherwise. *)
Definition layerSource (mem : Memory) (self : Texture) (bytesPerRow p : N)
    : UploadData :=
  if isAligned self bytesPerRow then CallerData p
  else LinearData (packedRows mem p bytesPerRow (imageRowWidth self)
                     (N.to_nat (TextureDesc.height (desc_ self))) 0).

(** The row counter fits [uint32_t] and the size of the temporary vector
    fits [size_t]. *)
Definition linearFits (self : Texture) : bool :=
  (TextureDesc.height (desc_ self) <? 2 ^ 32)
  && (imageRowWidth self * TextureDesc.height (desc_ self) <? 2 ^ 64).

(** The sum of the slice sizes of the mip levels [0 .. levels-1] for the
    range's extent and the texture's format, as a natural number. *)
Definition sliceSum (desc : TextureDesc.t) (range : TextureRangeDesc.t)
    (levels : N) : N :=
  fold_right N.add 0
    (map (fun i =>
            getTextureBytesPerSlice (TextureRangeDesc.width range)
              (TextureRangeDesc.height range) (TextureRangeDesc.depth range)
              (TextureDesc.format desc) i)
         (indices (N.to_nat levels))).

(** What the layer loop adds to the source pointer, as a natural number:
    the slice sizes of the mip span, a span of 0 counting as 1. *)
Definition mipSpanBytes (desc : TextureDesc.t) (range : TextureRangeDesc.t) : N :=
  sliceSum desc range (N.max (TextureRangeDesc.numMipLevels range) 1).

(** Byte size of one layer's mip chain as the specification words it: the
    sum, over the mip levels 0 .. numMipLevels-1 of the range, of the slice
    sizes for the range's extent and the texture's format. *)
Definition mipChainBytes (desc : TextureDesc.t) (range : TextureRangeDesc.t) : N :=
  fold_right N.add 0
    (map (fun i =>
            getTextureBytesPerSlice (TextureRangeDesc.width range)
              (TextureRangeDesc.height range) (TextureRangeDesc.depth range)
              (TextureDesc.format desc) i)
         (indices (N.to_nat (TextureRangeDesc.numMipLevels range)))).

(** The checks of [Texture::create] that reject a descriptor before
    anything is allocated; a mip-level count of 0 counts as 1 in them. *)
Definition normalizedMipLevels (desc : TextureDesc.t) : N :=
  if TextureDesc.numMipLevels desc =? 0 then 1 else TextureDesc.numMipLevels desc.

Definition normalizedUsage (desc : TextureDesc.t) : N :=
  if TextureDesc.usage desc =? 0 then TextureDesc.TextureUsageBits.Sampled
  else TextureDesc.usage desc.

Definition passesChecks (desc : TextureDesc.t) : bool :=
  supportedType (TextureDesc.type desc)
  && negb ((1 <? TextureDesc.numSamples desc)
           && negb (normalizedMipLevels desc =? 1))
  && negb ((1 <? TextureDesc.numSamples desc)
           && match TextureDesc.type desc with ThreeD => true | _ => false end)
  && (normalizedMipLevels desc
        <=? calcNumMipLevels (TextureDesc.width desc) (TextureDesc.height desc)).

End Sequences.

(** ** A sample configuration for the examples

    Four bytes per pixel, no compressed and no depth formats, a device that
    grants every request. *)
Definition sampleExternals : Externals := {|
  isDepthOrStencilFormat := fun _ => false;
  getClosestDepthStencilFormat := fun f => f;
  textureFormatToVkFormat := fun f => f;
  vkFormatToTextureFormat := fun f => f;
  isCompressedTextureFormat := fun _ => false;
  toBytesPerBlock := fun _ => 16;
  getBytesPerPixel := fun _ => 4;
  getTextureBytesPerSlice := fun w h d _ level =>
    mipDimension w level * mipDimension h level * mipDimension d level * 4;
  sliceBytesBits := 32;
  calcNumMipLevels := fun w h => N.log2_up (N.max w h) + 1;
  getVulkanSampleCountFlags := fun n => n;
  resourceStorageToVkMemoryPropertyFlags := fun _ => 1;
  PosX_value := 0;
  createImageOutcome := fun _ _ => (ResultOk, true);
  createImageViewOutcome := fun _ _ => true
|}.

Definition emptyDevice : DeviceState :=
  {| createdImages := []; createdViews := []; stagedTransfers := [] |}.

Definition newTexture (desc : TextureDesc.t) : Texture :=
  {| desc_ := desc; texture_ := None; imageViewForFramebuffer_ := [] |}.

(** A 2x2 two-dimensional texture with one layer and one mip level. *)
Definition sampleDesc : TextureDesc.t :=
  TextureDesc.mk TwoD 37 2 2 1 1 1 TextureDesc.TextureUsageBits.Sampled 1
    Private "".

(** A 2x2 cube texture. *)
Definition sampleCubeDesc : TextureDesc.t :=
  TextureDesc.mk Cube 37 2 2 1 1 1 TextureDesc.TextureUsageBits.Sampled 1
    Private "".

(** A 2x2 two-dimensional texture with four layers and two mip levels. *)
Definition sampleArrayDesc : TextureDesc.t :=
  TextureDesc.mk TwoD 37 2 2 1 4 1 TextureDesc.TextureUsageBits.Sampled 2
    Private "".

(** Four samples and a mip-level count of 0. *)
Definition multisampledNoMipsDesc : TextureDesc.t :=
  TextureDesc.mk TwoD 37 2 2 1 1 4 TextureDesc.TextureUsageBits.Sampled 0
    Private "".

(** A cube with four samples and one mip level. *)
Definition multisampledCubeDesc : TextureDesc.t :=
  TextureDesc.mk Cube 37 2 2 1 1 4 TextureDesc.TextureUsageBits.Sampled 1
    Private "".

(** A mip-level count of 0 and no usage bit. *)
Definition zeroDesc : TextureDesc.t :=
  TextureDesc.mk TwoD 37 2 2 1 1 1 0 0 Private "".

(** The texture and the device after [create] of a descriptor on the sample
    device. *)
Definition created (desc : TextureDesc.t) : Texture :=
  snd (fst (create (ext := sampleExternals) emptyDevice (newTexture desc) desc)).

Definition deviceAfterCreate (desc : TextureDesc.t) : DeviceState :=
  snd (create (ext := sampleExternals) emptyDevice (newTexture desc) desc).

(** The whole image at mip level 0, one layer. *)
Definition fullRange : TextureRangeDesc.t :=
  TextureRangeDesc.mk 0 0 0 2 2 1 0 1 0 1.

(** A range three pixels wide, wider than the 2x2 samples. *)
Definition wideRange : TextureRangeDesc.t :=
  TextureRangeDesc.mk 0 0 0 3 2 1 0 1 0 1.

(** Memory holding [bytes] from address [base] on and zero elsewhere. *)
Definition memoryOf (base : N) (bytes : list Byte.byte) : Memory :=
  fun a => if a <? base then Byte.x00
           else nth (N.to_nat (a - base)) bytes Byte.x00.

(** Four samples and two mip levels. *)
Definition multisampledMipsDesc : TextureDesc.t :=
  TextureDesc.mk TwoD 37 2 2 1 1 4 TextureDesc.TextureUsageBits.Sampled 2
    Private "".

(** Two layers with two mip levels each. *)
Definition twoLayerRange : TextureRangeDesc.t :=
  TextureRangeDesc.mk 0 0 0 2 2 1 0 2 0 2.

(** The image and primary view of a created sample; the samples all have
    one, the placeholder is never reached. *)
Definition primary (desc : TextureDesc.t) : VulkanTexture :=
  match texture_ (created desc) with
  | Some t => t
  | None => {| image_ := Build_VulkanImage 0 VK_IMAGE_TYPE_2D
                           (Build_VkExtent3D 0 0 0) 0 0 0 0 0 0 0 0 "";
               imageView_ := Build_VulkanImageView 0 0 VK_IMAGE_VIEW_TYPE_2D
                               0 0 0 0 0 0 "" |}
  end.

(** The two rows of a 2x2 image, 8 bytes each, tightly packed at address
    100, and with 4 bytes of padding after each row at address 200. *)
Definition row0 : list Byte.byte :=
  [Byte.x01; Byte.x02; Byte.x03; Byte.x04; Byte.x05; Byte.x06; Byte.x07; Byte.x08].
Definition row1 : list Byte.byte :=
  [Byte.x11; Byte.x12; Byte.x13; Byte.x14; Byte.x15; Byte.x16; Byte.x17; Byte.x18].
Definition padding : list Byte.byte := [Byte.xff; Byte.xff; Byte.xff; Byte.xff].
Definition packedMemory : Memory := memoryOf 100 (row0 ++ row1).
Definition paddedMemory : Memory :=
  memoryOf 200 (row0 ++ padding ++ row1 ++ padding).

(** An unsupported type with a mip-level count of 0. *)
Definition invalidZeroDesc : TextureDesc.t :=
  TextureDesc.mk Invalid 37 2 2 1 1 1 TextureDesc.TextureUsageBits.Sampled 0
    Private "".

(** Four samples, two mip levels and no usage bit. *)
Definition multisampledNoUsageDesc : TextureDesc.t :=
  TextureDesc.mk TwoD 37 2 2 1 1 4 0 2 Private "".

(** Two layers with a mip span of 0. *)
Definition noMipsTwoLayerRange : TextureRangeDesc.t :=
  TextureRangeDesc.mk 0 0 0 2 2 1 0 2 0 0.



(** A second 2x2 layer, and the two layers one after the other: tightly
    packed at address 100, and with 4 bytes of padding after each row at
    address 200. *)
Definition row2 : list Byte.byte :=
  [Byte.x21; Byte.x22; Byte.x23; Byte.x24; Byte.x25; Byte.x26; Byte.x27; Byte.x28].
Definition row3 : list Byte.byte :=
  [Byte.x31; Byte.x32; Byte.x33; Byte.x34; Byte.x35; Byte.x36; Byte.x37; Byte.x38].
Definition packedLayers : Memory := memoryOf 100 (row0 ++ row1 ++ row2 ++ row3).

(** ** Further observations on descriptors and flags *)

(** [(flags & bit) != 0] *)
Definition hasFlag (flags bit : N) : bool := negb (N.land flags bit =? 0).

(** The descriptor with both corrections of [Texture::create] applied. *)
Definition normalizedDesc (desc : TextureDesc.t) : TextureDesc.t :=
  TextureDesc.with_usage (normalizedUsage desc)
    (TextureDesc.with_numMipLevels (normalizedMipLevels desc) desc).

(** [storage == ResourceStorage::Private] *)
Definition isPrivate (s : ResourceStorage) : bool :=
  match s with Private => true | _ => false end.
(** The range with its layer and layer count replaced. *)
Definition rangeWithLayers (layer numLayers : N) (range : TextureRangeDesc.t)
    : TextureRangeDesc.t :=
  TextureRangeDesc.mk (TextureRangeDesc.x range) (TextureRangeDesc.y range)
    (TextureRangeDesc.z range) (TextureRangeDesc.width range)
    (TextureRangeDesc.height range) (TextureRangeDesc.depth range)
    layer numLayers (TextureRangeDesc.mipLevel range)
    (TextureRangeDesc.numMipLevels range).

(** ** [Texture::generateMipmap] *)

(** A command submitted through the immediate command buffer:
    [VulkanImage::generateMipmap] on an image. *)
Inductive ImmediateCommand :=
| generateMipmapCommand (image : VulkanImage).

(** [Texture::generateMipmap()]: the commands submitted so far are threaded
    through.  [imageLayout] gives the current [imageLayout_] of an image,
    state that the image and the staging device keep and this file does not
    define.  The two assertions guard the call and nothing behind them
    recovers from a failure: a null [texture_] or an image whose layout is
    still undefined stops the call, [None], and nothing is submitted. *)
Definition generateMipmap (imageLayout : VulkanImage -> N)
    (submitted : list ImmediateCommand) (self : Texture)
    : option (list ImmediateCommand) :=
  if 1 <? TextureDesc.numMipLevels (desc_ self)
  then match texture_ self with
       | None => None
       | Some t =>
         if imageLayout (image_ t) =? VK_IMAGE_LAYOUT_UNDEFINED then None
         else Some (submitted ++ [generateMipmapCommand (image_ t)])
       end
  else Some submitted.


(** ** The XOR pattern of [samples/Tiny_Mesh.cpp]

    The sample fills a [std::vector<uint32_t>] of [texWidth * texHeight]
    pixels before uploading it.  All arithmetic is in [uint32_t]; a store
    outside the vector is undefined behaviour, [None]. *)

(** [0xFF000000 + ((x ^ y) << 16) + ((x ^ y) << 8) + (x ^ y)] *)
Definition xorPixel (x y : N) : N :=
  u32 (u32 (u32 (0xFF000000 + u32 (N.shiftl (N.lxor x y) 16))
            + u32 (N.shiftl (N.lxor x y) 8))
       + N.lxor x y).

(** [pixels[i] = v] *)
Definition storePixel (pixels : list N) (i v : N) : option (list N) :=
  if i <? N.of_nat (length pixels)
  then Some (<[N.to_nat i := v]> pixels)
  else None.

(** [for (uint32_t x = ...; x != texWidth; x++)], [count] iterations left *)
Fixpoint fillRow (texWidth y : N) (count : nat) (x : N) (pixels : list N)
    : option (list N) :=
  match count with
  | O => Some pixels
  | S count' =>
      match storePixel pixels (u32 (u32 (y * texWidth) + x)) (xorPixel x y) with
      | None => None
      | Some pixels' => fillRow texWidth y count' (u32 (x + 1)) pixels'
      end
  end.

(** [for (uint32_t y = ...; y != texHeight; y++)], [count] iterations left *)
Fixpoint fillRows (texWidth : N) (count : nat) (y : N) (pixels : list N)
    : option (list N) :=
  match count with
  | O => Some pixels
  | S count' =>
      match fillRow texWidth y (N.to_nat texWidth) 0 pixels with
      | None => None
      | Some pixels' => fillRows texWidth count' (u32 (y + 1)) pixels'
      end
  end.

(** [std::vector<uint32_t> pixels(texWidth * texHeight)] and the two loops *)
Definition xorPattern (texWidth texHeight : N) : option (list N) :=
  fillRows texWidth (N.to_nat texHeight) 0
    (replicate (N.to_nat (u32 (texWidth * texHeight))) 0).


(** ** More sample configurations *)

(** The sample configuration on a device that answers [createImage] with
    [imageOutcome] and [createImageView] with [viewOutcome]. *)
Definition deviceExternals (imageOutcome : Result.t * bool)
    (viewOutcome : bool) : Externals := {|
  isDepthOrStencilFormat := fun _ => false;
  getClosestDepthStencilFormat := fun f => f;
  textureFormatToVkFormat := fun f => f;
  vkFormatToTextureFormat := fun f => f;
  isCompressedTextureFormat := fun _ => false;
  toBytesPerBlock := fun _ => 16;
  getBytesPerPixel := fun _ => 4;
  getTextureBytesPerSlice := fun w h d _ level =>
    mipDimension w level * mipDimension h level * mipDimension d level * 4;
  sliceBytesBits := 32;
  calcNumMipLevels := fun w h => N.log2_up (N.max w h) + 1;
  getVulkanSampleCountFlags := fun n => n;
  resourceStorageToVkMemoryPropertyFlags := fun _ => 1;
  PosX_value := 0;
  createImageOutcome := fun _ _ => imageOutcome;
  createImageViewOutcome := fun _ _ => viewOutcome
|}.

(** The outcome of [getVkImageViewForFramebuffer] for mip level 1 of the
    created sample array texture; the call returns, the placeholders are
    never reached. *)
Definition viewedHandle : VkHandle :=
  match getVkImageViewForFramebuffer (ext := sampleExternals)
          (deviceAfterCreate sampleArrayDesc) (created sampleArrayDesc) 1 with
  | Some (h, _, _) => h
  | None => VK_NULL_HANDLE
  end.

Definition viewedTexture : Texture :=
  match getVkImageViewForFramebuffer (ext := sampleExternals)
          (deviceAfterCreate sampleArrayDesc) (created sampleArrayDesc) 1 with
  | Some (_, self1, _) => self1
  | None => created sampleArrayDesc
  end.

Definition viewedDevice : DeviceState :=
  match getVkImageViewForFramebuffer (ext := sampleExternals)
          (deviceAfterCreate sampleArrayDesc) (created sampleArrayDesc) 1 with
  | Some (_, _, dev1) => dev1
  | None => deviceAfterCreate sampleArrayDesc
  end.

(** The size of the pattern in [samples/Tiny_Mesh.cpp]. *)
Definition texWidth : N := 256.
Definition texHeight : N := 256.

(** * Properties *)

(** ** Machine arithmetic *)

Lemma u32_small (x : N) : x < 2 ^ 32 -> u32 x = x.
Proof. intros Hx. unfold u32. now apply N.mod_small. Qed.

Lemma usize_small (x : N) : x < 2 ^ 64 -> usize x = x.
Proof. intros Hx. unfold usize. now apply N.mod_small. Qed.

Lemma u32_sub_offset (b k : N) :
  k < 2 ^ 32 -> u32_sub (u32 (b + k)) (u32 (b + 0)) = k.
Proof.
  intros Hk. unfold u32_sub, u32. rewrite N.add_0_r.
  change (2 ^ 32) with 4294967296 in *.
  zify. Z.to_euclidean_division_equations. lia.
Qed.

Lemma face_ordinal_bound (f : TextureCubeFace) : face_ordinal f < 6.
Proof. destruct f; simpl; lia. Qed.

(** ** Lists, memory and recorded transfers *)

Lemma length_read (mem : Memory) (p n : N) : length (read mem p n) = N.to_nat n.
Proof. unfold read. now rewrite length_map, length_seq. Qed.


Lemma indices_S (n : nat) : indices (S n) = 0 :: map N.succ (indices n).
Proof.
  unfold indices. cbn [seq map]. f_equal.
  rewrite <- seq_shift, !map_map. apply map_ext. intros k. lia.
Qed.

Lemma memcpy_middle (pre mid post src : list Byte.byte) (off : N) :
  off = N.of_nat (length pre) ->
  length mid = length src ->
  memcpy (pre ++ mid ++ post) off src = Some (pre ++ src ++ post).
Proof.
  intros -> Hlen. unfold memcpy.
  rewrite !length_app.
  destruct (_ <=? _) eqn:Hle.
  2: { apply N.leb_gt in Hle. lia. }
  rewrite Nat2N.id. f_equal.
  rewrite take_app_length. f_equal. f_equal.
  rewrite <- Hlen, drop_app_add', drop_app_length; [reflexivity | reflexivity].
Qed.

Lemma length_packedRows mem data bpr irw rows h :
  length (packedRows mem data bpr irw rows h) = (rows * N.to_nat irw)%nat.
Proof.
  revert h. induction rows as [|rows IH]; intros h; cbn [packedRows].
  - reflexivity.
  - rewrite length_app, length_read, IH. lia.
Qed.

Lemma repackRows_spec mem data bpr irw rows :
  forall h pre post,
    N.of_nat (length pre) = h * irw ->
    length post = (rows * N.to_nat irw)%nat ->
    (h + N.of_nat rows) * irw < 2 ^ 64 ->
    repackRows mem data bpr irw rows h (pre ++ post)
    = Some (pre ++ packedRows mem data bpr irw rows h).
Proof.
  induction rows as [|rows IH]; intros h pre post Hpre Hpost Hfit;
    cbn [repackRows packedRows].
  - destruct post; [reflexivity | discriminate].
  - rewrite <- (take_drop (N.to_nat irw) post).
    rewrite usize_small by nia.
    rewrite (memcpy_middle pre _ _ (read mem (data + usize (h * bpr)) irw)).
    + rewrite (app_assoc pre). rewrite IH.
      * now rewrite <- app_assoc.
      * rewrite length_app, length_read. lia.
      * rewrite length_drop. lia.
      * lia.
    + lia.
    + rewrite length_take, length_read. lia.
Qed.

Lemma stagedTransfers_stageAll ts dev :
  stagedTransfers (stageAll ts dev) = stagedTransfers dev ++ ts.
Proof.
  revert dev. induction ts as [|t ts IH]; intros dev; cbn [stageAll fold_left].
  - now rewrite app_nil_r.
  - fold (stageAll ts (stage t dev)). rewrite IH. cbn [stage stagedTransfers].
    now rewrite <- app_assoc.
Qed.

Section TextureProperties.
Context {ext : Externals}.

Lemma faceValue_ordinal (f : TextureCubeFace) :
  u32_sub (faceValue f) (faceValue PosX) = face_ordinal f.
Proof.
  unfold faceValue. change (face_ordinal PosX) with 0.
  apply u32_sub_offset. pose proof (face_ordinal_bound f).
  change (2 ^ 32) with 4294967296. lia.
Qed.

Lemma validateRange_ok (self : Texture) (range : TextureRangeDesc.t) :
  rangeInBounds self range = true -> validateRange self range = ResultOk.
Proof. intros Hr. unfold validateRange. now rewrite Hr. Qed.

Lemma validateRange_escapes (self : Texture) (range : TextureRangeDesc.t) :
  rangeInBounds self range = false ->
  validateRange self range = Result.mk Result.RangeOutOfBounds "".
Proof. intros Hr. unfold validateRange. now rewrite Hr. Qed.

(** ** Null source pointer *)

(** C4.  With a null source pointer [upload] returns success and hands the
    device back as it was: no transfer is recorded and nothing the texture
    holds changes, whatever the range and the row stride. *)
Theorem upload_null_data_is_noop (mem : Memory) (dev : DeviceState)
    (self : Texture) (range : TextureRangeDesc.t) (bytesPerRow : N) :
  upload mem dev self range 0 bytesPerRow = Some (ResultOk, dev)
  /\ Result.isOk ResultOk = true.
Proof. split; reflexivity. Qed.

(** ** Ranges that escape the texture *)

(** C1, amended.  For a range that escapes the texture, [upload] with a
    non-null source pointer returns [RangeOutOfBounds] and records nothing,
    for every row stride; with a null source pointer it returns success, and
    records nothing either. *)
Theorem upload_range_escapes (mem : Memory) (dev : DeviceState)
    (self : Texture) (range : TextureRangeDesc.t) (data bytesPerRow : N) :
  rangeInBounds self range = false ->
  upload mem dev self range data bytesPerRow
  = Some (if data =? 0 then ResultOk
          else Result.mk Result.RangeOutOfBounds "", dev).
Proof.
  intros Hr. unfold upload.
  destruct (data =? 0); [reflexivity|].
  now rewrite (validateRange_escapes _ _ Hr).
Qed.

(** ** Cube faces *)

(** The copy [uploadCube] records. *)
Lemma uploadCube_valid (dev : DeviceState) (self : Texture) (t : VulkanTexture)
    (range : TextureRangeDesc.t) (face : TextureCubeFace) (data bytesPerRow : N) :
  texture_ self = Some t ->
  rangeInBounds self range = true ->
  uploadCube dev self range face data bytesPerRow
  = Some (ResultOk,
          stage (imageData2D (image_ t)
                   (ivkGetRect2D (u32 (TextureRangeDesc.x range))
                      (u32 (TextureRangeDesc.y range))
                      (u32 (TextureRangeDesc.width range))
                      (u32 (TextureRangeDesc.height range)))
                   (u32 (TextureRangeDesc.mipLevel range))
                   (u32 (TextureRangeDesc.numMipLevels range))
                   (face_ordinal face) (getVkFormat self) (CallerData data))
                dev).
Proof.
  intros Ht Hr. unfold uploadCube.
  rewrite (validateRange_ok _ _ Hr), Ht. cbn.
  now rewrite faceValue_ordinal.
Qed.



(** C10.  [uploadCube] has no null check: whenever the range validates it
    records a 2D copy carrying the caller's pointer as it is, the null
    pointer included, while [upload] with the null pointer returns success
    and records nothing. *)
Theorem uploadCube_passes_null_data (mem : Memory) (dev : DeviceState)
    (self : Texture) (t : VulkanTexture) (range : TextureRangeDesc.t)
    (face : TextureCubeFace) (bytesPerRow : N) :
  texture_ self = Some t ->
  rangeInBounds self range = true ->
  (forall data,
     uploadCube dev self range face data bytesPerRow
     = Some (ResultOk,
             stage (imageData2D (image_ t)
                      (ivkGetRect2D (u32 (TextureRangeDesc.x range))
                         (u32 (TextureRangeDesc.y range))
                         (u32 (TextureRangeDesc.width range))
                         (u32 (TextureRangeDesc.height range)))
                      (u32 (TextureRangeDesc.mipLevel range))
                      (u32 (TextureRangeDesc.numMipLevels range))
                      (face_ordinal face) (getVkFormat self) (CallerData data))
                   dev))
  /\ stagedTransfers
       (stage (imageData2D (image_ t)
                 (ivkGetRect2D (u32 (TextureRangeDesc.x range))
                    (u32 (TextureRangeDesc.y range))
                    (u32 (TextureRangeDesc.width range))
                    (u32 (TextureRangeDesc.height range)))
                 (u32 (TextureRangeDesc.mipLevel range))
                 (u32 (TextureRangeDesc.numMipLevels range))
                 (face_ordinal face) (getVkFormat self) (CallerData 0))
              dev)
     <> stagedTransfers dev
  /\ upload mem dev self range 0 bytesPerRow = Some (ResultOk, dev).
Proof.
  intros Ht Hr. split; [|split].
  - intros data. apply (uploadCube_valid _ _ _ _ _ _ _ Ht Hr).
  - cbn [stage stagedTransfers]. intros Heq.
    apply (f_equal length) in Heq. rewrite length_app in Heq. cbn in Heq. lia.
  - reflexivity.
Qed.

(** ** Creation *)

Lemma desc_set_desc_ (d : TextureDesc.t) (self : Texture) :
  desc_ (set_desc_ d self) = d.
Proof. reflexivity. Qed.

Ltac simpl_desc :=
  cbn [desc_ set_desc_ texture_ set_texture_ imageViewForFramebuffer_
       TextureDesc.numMipLevels TextureDesc.with_numMipLevels
       TextureDesc.type TextureDesc.format TextureDesc.width TextureDesc.height
       TextureDesc.depth TextureDesc.numLayers TextureDesc.numSamples
       TextureDesc.usage TextureDesc.storage TextureDesc.debugName
       TextureDesc.with_usage] in *.

Lemma passesChecks_inv desc :
  passesChecks desc = true ->
  supportedType (TextureDesc.type desc) = true
  /\ (1 <? TextureDesc.numSamples desc) && negb (normalizedMipLevels desc =? 1) = false
  /\ (1 <? TextureDesc.numSamples desc)
     && match TextureDesc.type desc with ThreeD => true | _ => false end = false
  /\ (normalizedMipLevels desc
        <=? calcNumMipLevels (TextureDesc.width desc) (TextureDesc.height desc)) = true.
Proof.
  unfold passesChecks. intros Hp.
  apply andb_true_iff in Hp as [Hp H4]. apply andb_true_iff in Hp as [Hp H3].
  apply andb_true_iff in Hp as [H1 H2].
  apply negb_true_iff in H2, H3. auto.
Qed.

Lemma createImage_images dev ty extent fmt ml al til uf mf cf sa dn r img dev' :
  createImage dev ty extent fmt ml al til uf mf cf sa dn = (r, Some img, dev') ->
  createdImages dev' = createdImages dev ++ [img] /\ samples_ img = sa
  /\ usageFlags_ img = uf /\ createdViews dev' = createdViews dev
  /\ stagedTransfers dev' = stagedTransfers dev.
Proof.
  unfold createImage. destruct (createImageOutcome _ _) as [r0 [|]]; intros Heq;
    inversion Heq; subst; cbn; auto.
Qed.

Lemma createImageView_some dev img ty fmt am bl nl bly nly dn v dev' :
  createImageView dev img ty fmt am bl nl bly nly dn = (Some v, dev') ->
  createdImages dev' = createdImages dev
  /\ createdViews dev' = createdViews dev ++ [v]
  /\ stagedTransfers dev' = stagedTransfers dev
  /\ aspectMask_ v = am /\ baseLevel_ v = bl /\ viewNumLevels_ v = nl
  /\ baseLayer_ v = bly /\ viewNumLayers_ v = nly /\ viewType_ v = ty
  /\ vkImageView_ v = freshHandle (createdViews dev).
Proof.
  unfold createImageView. destruct (createImageViewOutcome _ _); intros Heq;
    inversion Heq; subst; cbn; repeat split; auto.
Qed.

(** What a successful [create] leaves behind. *)
Lemma create_ok dev self desc r self' dev' :
  create dev self desc = (r, self', dev') ->
  Result.isOk r = true ->
  exists t,
    texture_ self' = Some t
    /\ createdImages dev' = createdImages dev ++ [image_ t]
    /\ aspectMask_ (imageView_ t) = getImageAspectFlags (image_ t)
    /\ samples_ (image_ t)
       = match TextureDesc.type desc with
         | TwoD => getVulkanSampleCountFlags (TextureDesc.numSamples desc)
         | _ => VK_SAMPLE_COUNT_1_BIT
         end
    /\ imageViewForFramebuffer_ self' = imageViewForFramebuffer_ self
    /\ desc_ self'
       = TextureDesc.with_usage (normalizedUsage desc)
           (TextureDesc.with_numMipLevels (normalizedMipLevels desc) desc).
Proof.
  destruct desc as [ty fmt w h d nl ns us nm st dn].
  unfold create, normalizedUsage, normalizedMipLevels. simpl_desc.
  intros Hc Hok.
  destruct (supportedType ty) eqn:Hty; cbn [negb] in Hc.
  2: { inversion Hc; subst; discriminate. }
  destruct (nm =? 0) eqn:Hnm; simpl_desc.
  all: destruct ((1 <? ns) && negb (_ =? 1)) eqn:H2 in Hc;
    [inversion Hc; subst; discriminate|].
  all: destruct ((1 <? ns) && _) eqn:H3 in Hc;
    [inversion Hc; subst; discriminate|].
  all: destruct (negb _) eqn:H4 in Hc;
    [inversion Hc; subst; discriminate|].
  all: destruct (us =? 0) eqn:Hus; simpl_desc.
  all: destruct ty; try discriminate Hty.
  all: match type of Hc with
       | context [createImage ?a ?b ?c ?d ?e ?f ?g ?h ?i ?j ?k ?l] =>
         destruct (createImage a b c d e f g h i j k l) as [[r1 [img|]] dev1] eqn:Hci
       end.
  all: destruct (Result.isOk r1) eqn:Hr1; cbn [negb] in Hc;
    [|inversion Hc; subst; congruence].
  all: try (inversion Hc; subst; discriminate).
  all: match type of Hc with
       | context [createImageView ?a ?b ?c ?d ?e ?f ?g ?h ?i ?j] =>
         destruct (createImageView a b c d e f g h i j) as [[v|] dev2] eqn:Hcv
       end.
  all: try (inversion Hc; subst; discriminate).
  all: inversion Hc; subst; clear Hc.
  all: apply createImage_images in Hci as (Hi & Hs & Hu & _ & _).
  all: apply createImageView_some in Hcv as (Hi2 & _ & _ & Ha & _).
  all: eexists; simpl_desc; cbn [createTexture image_ imageView_].
  all: repeat split; try reflexivity; try congruence.
  all: cbn [image_ imageView_]; try congruence.
  all: unfold getImageAspectFlags; rewrite Ha, Hu; reflexivity.
Qed.

Lemma create_usage_zero dev self desc :
  TextureDesc.usage desc = 0 ->
  passesChecks desc = true ->
  create dev self desc
  = create dev self (TextureDesc.with_usage TextureDesc.TextureUsageBits.Sampled desc).
Proof.
  intros H0 Hp. apply passesChecks_inv in Hp as (H1 & H2 & H3 & H4).
  destruct desc as [ty fmt w h d nl ns us nm st dn].
  unfold normalizedMipLevels in *. simpl_desc. subst us.
  unfold create. simpl_desc. rewrite H1. cbn [negb].
  destruct (nm =? 0) eqn:Hnm; simpl_desc;
    rewrite H2, H3, H4; cbn [negb]; reflexivity.
Qed.

Lemma create_usage_zero_outcome dev self desc r self' dev' :
  TextureDesc.usage desc = 0 ->
  create dev self desc = (r, self', dev') ->
  exists s,
    create dev self (TextureDesc.with_usage TextureDesc.TextureUsageBits.Sampled desc)
    = (r, s, dev').
Proof.
  intros H0 Hc. destruct (passesChecks desc) eqn:Hp.
  - exists self'. now rewrite <- (create_usage_zero dev self desc H0 Hp).
  - destruct desc as [ty fmt w h d nl ns us nm st dn].
    unfold passesChecks, normalizedMipLevels in Hp. simpl_desc. subst us.
    revert Hc. unfold create. simpl_desc.
    destruct (supportedType ty) eqn:Hty; cbn [negb andb] in *.
    2: { intros Hc; inversion Hc; subst; eexists; reflexivity. }
    destruct (nm =? 0) eqn:Hnm; simpl_desc.
    all: destruct ((1 <? ns) && negb (_ =? 1)) eqn:H2;
      [intros Hc; inversion Hc; subst; eexists; reflexivity|].
    all: destruct ((1 <? ns) && _) eqn:H3 in Hp |- *;
      [intros Hc; inversion Hc; subst; eexists; reflexivity|].
    all: cbn [negb andb] in Hp; rewrite Hp; cbn [negb].
    all: intros Hc; inversion Hc; subst; eexists; reflexivity.
Qed.

Lemma create_mips_zero dev self desc :
  TextureDesc.numMipLevels desc = 0 ->
  supportedType (TextureDesc.type desc) = true ->
  create dev self desc = create dev self (TextureDesc.with_numMipLevels 1 desc).
Proof.
  intros H0 Hty. destruct desc as [ty fmt w h d nl ns us nm st dn].
  simpl_desc. subst nm. unfold create. simpl_desc.
  rewrite Hty. cbn [negb N.eqb Pos.eqb].
  reflexivity.
Qed.

(** The descriptor the texture holds after [create], at each stage. *)
Lemma create_desc_ dev self desc :
  let self' := snd (fst (create dev self desc)) in
  (supportedType (TextureDesc.type desc) = true ->
   getNumMipLevels self' = normalizedMipLevels desc)
  /\ (passesChecks desc = true -> getUsage self' = normalizedUsage desc).
Proof.
  destruct desc as [ty fmt w h d nl ns us nm st dn].
  unfold passesChecks, normalizedMipLevels, normalizedUsage, getNumMipLevels,
    getUsage, create.
  simpl_desc.
  destruct (supportedType ty) eqn:Hty; cbn [negb andb].
  2: { split; intros; discriminate. }
  set (D := TextureDesc.mk ty fmt w h d nl ns us nm st dn).
  set (m := if nm =? 0 then 1 else nm).
  replace (if nm =? 0 then set_desc_ (TextureDesc.with_numMipLevels 1 D) (set_desc_ D self)
           else set_desc_ D self)
    with (set_desc_ (TextureDesc.with_numMipLevels m D) self)
    by (subst m D; destruct (nm =? 0); reflexivity).
  subst D. simpl_desc.
  destruct ((1 <? ns) && negb (m =? 1)) eqn:H2;
    [split; [reflexivity | discriminate]|].
  destruct ((1 <? ns) && match ty with ThreeD => true | _ => false end) eqn:H3;
    [split; [reflexivity | discriminate]|].
  cbn [negb andb].
  destruct (m <=? calcNumMipLevels w h) eqn:H4; cbn [negb];
    [|split; [reflexivity | discriminate]].
  destruct (us =? 0) eqn:Hus; simpl_desc.
  all: destruct ty; try discriminate Hty.
  all: match goal with
       | |- context [createImage ?a ?b ?c ?d ?e ?f ?g ?h ?i ?j ?k ?l] =>
         destruct (createImage a b c d e f g h i j k l) as [[r1 [img|]] dev1]
       end.
  all: destruct (negb (Result.isOk r1)); simpl_desc; cbn [fst snd];
    simpl_desc; try (split; reflexivity).
  all: match goal with
       | |- context [createImageView ?a ?b ?c ?d ?e ?f ?g ?h ?i ?j] =>
         destruct (createImageView a b c d e f g h i j) as [[v|] dev2]
       end.
  all: cbn [fst snd]; simpl_desc; split; reflexivity.
Qed.

(** On a device that grants every request, a descriptor that passes the
    checks is accepted. *)
Lemma create_succeeds dev self desc :
  passesChecks desc = true ->
  (forall d img, createImageOutcome d img = (ResultOk, true)) ->
  (forall d view, createImageViewOutcome d view = true) ->
  exists self' dev', create dev self desc = (ResultOk, self', dev').
Proof.
  intros Hp Himg Hview. apply passesChecks_inv in Hp as (H1 & H2 & H3 & H4).
  destruct desc as [ty fmt w h d nl ns us nm st dn].
  unfold normalizedMipLevels in *. simpl_desc.
  unfold create, createImage, createImageView. simpl_desc.
  rewrite H1. cbn [negb].
  destruct (nm =? 0) eqn:Hnm; simpl_desc; rewrite H2, H3, H4; cbn [negb].
  all: destruct (us =? 0); simpl_desc.
  all: destruct ty; try discriminate H1.
  all: rewrite Himg; cbn [Result.isOk Result.code ResultOk negb];
    rewrite Hview; eexists _, _; reflexivity.
Qed.

(** C2, amended.  A descriptor with more than one sample is rejected, and
    the device is left as it was (no image is created), whenever its
    mip-level count is greater than 1 or its type is ThreeD.  The code is
    [ArgumentOutOfRange] for the types [create] supports; a type it does not
    support is rejected before, as [Unimplemented].  A mip-level count of 0
    does not trigger the rejection: it is corrected to 1 before the check. *)
Theorem create_rejects_multisampled (dev : DeviceState) (self : Texture)
    (desc : TextureDesc.t) :
  1 < TextureDesc.numSamples desc ->
  1 < TextureDesc.numMipLevels desc \/ TextureDesc.type desc = ThreeD ->
  exists r self',
    create dev self desc = (r, self', dev)
    /\ Result.isOk r = false
    /\ Result.code r
       = (if supportedType (TextureDesc.type desc)
          then Result.ArgumentOutOfRange else Result.Unimplemented).
Proof.
  intros Hs Hcase. unfold create. rewrite !desc_set_desc_.
  destruct (supportedType (TextureDesc.type desc)) eqn:Hty; cbn [negb].
  2: { eexists _, _. repeat split. }
  apply N.ltb_lt in Hs. rewrite Hs. cbn [andb].
  destruct (TextureDesc.numMipLevels desc =? 0) eqn:H0;
    rewrite !desc_set_desc_.
  - apply N.eqb_eq in H0.
    destruct Hcase as [Hm | H3d]; [lia|].
    cbn. rewrite H3d. eexists _, _. repeat split.
  - destruct (TextureDesc.numMipLevels desc =? 1) eqn:H1; cbn [negb].
    + apply N.eqb_eq in H1.
      destruct Hcase as [Hm | H3d]; [lia|].
      rewrite H3d. eexists _, _. repeat split.
    + eexists _, _. repeat split.
Qed.

(** C3.  For a type [create] supports, a mip-level count of 0 is no reason
    to fail: [create] goes on exactly as for the descriptor with the count
    set to 1, and [getNumMipLevels] reports 1 afterwards.  An empty usage
    set is no reason to fail either: the result and the device are those of
    the descriptor with usage [Sampled], and once the checks before the
    correction are passed the texture is the same too and [getUsage]
    reports [Sampled].  A descriptor refused by a check that comes before a
    correction does not reach it. *)
Theorem create_normalizes_zero (dev : DeviceState) (self : Texture)
    (desc : TextureDesc.t) (r : Result.t) (self' : Texture) (dev' : DeviceState) :
  create dev self desc = (r, self', dev') ->
  (TextureDesc.numMipLevels desc = 0 ->
   supportedType (TextureDesc.type desc) = true ->
   create dev self (TextureDesc.with_numMipLevels 1 desc) = (r, self', dev')
   /\ getNumMipLevels self' = 1)
  /\ (TextureDesc.usage desc = 0 ->
      (exists s,
         create dev self
           (TextureDesc.with_usage TextureDesc.TextureUsageBits.Sampled desc)
         = (r, s, dev'))
      /\ (passesChecks desc = true ->
          create dev self
            (TextureDesc.with_usage TextureDesc.TextureUsageBits.Sampled desc)
          = (r, self', dev')
          /\ getUsage self' = TextureDesc.TextureUsageBits.Sampled)).
Proof.
  intros Hc. pose proof (create_desc_ dev self desc) as [Hmips Husage].
  rewrite Hc in Hmips, Husage. cbn [fst snd] in Hmips, Husage.
  split.
  - intros H0 Hty. split.
    + now rewrite <- (create_mips_zero dev self desc H0 Hty).
    + rewrite (Hmips Hty). unfold normalizedMipLevels. now rewrite H0.
  - intros H0. split.
    + exact (create_usage_zero_outcome dev self desc r self' dev' H0 Hc).
    + intros Hp. split.
      * now rewrite <- (create_usage_zero dev self desc H0 Hp).
      * rewrite (Husage Hp). unfold normalizedUsage. now rewrite H0.
Qed.

(** C9.  An accepted Cube or ThreeD descriptor gets an image with sample
    count 1 whatever [numSamples] asks for, and [getSamples] still reports
    the requested count; only for TwoD is the requested count passed on.  A
    Cube descriptor with more than one sample and one mip level passes the
    checks; on a device that grants every request it is accepted. *)
Theorem create_cube_3d_single_sampled (dev : DeviceState) (self : Texture)
    (desc : TextureDesc.t) :
  (TextureDesc.type desc = Cube \/ TextureDesc.type desc = ThreeD ->
   forall r self' dev',
     create dev self desc = (r, self', dev') ->
     Result.isOk r = true ->
     exists t,
       texture_ self' = Some t
       /\ createdImages dev' = createdImages dev ++ [image_ t]
       /\ samples_ (image_ t) = VK_SAMPLE_COUNT_1_BIT
       /\ getSamples self' = TextureDesc.numSamples desc)
  /\ (TextureDesc.type desc = TwoD ->
      forall r self' dev',
        create dev self desc = (r, self', dev') ->
        Result.isOk r = true ->
        exists t,
          texture_ self' = Some t
          /\ samples_ (image_ t)
             = getVulkanSampleCountFlags (TextureDesc.numSamples desc))
  /\ (TextureDesc.type desc = Cube ->
      1 < TextureDesc.numSamples desc ->
      TextureDesc.numMipLevels desc = 1 ->
      1 <= calcNumMipLevels (TextureDesc.width desc) (TextureDesc.height desc) ->
      (forall d img, createImageOutcome d img = (ResultOk, true)) ->
      (forall d view, createImageViewOutcome d view = true) ->
      passesChecks desc = true
      /\ exists self' dev', create dev self desc = (ResultOk, self', dev')).
Proof.
  split; [|split].
  - intros Hty r self' dev' Hc Hok.
    destruct (create_ok dev self desc r self' dev' Hc Hok)
      as (t & Ht & Himg & _ & Hs & _ & Hd).
    exists t. repeat split; try assumption.
    + rewrite Hs. destruct Hty as [-> | ->]; reflexivity.
    + unfold getSamples. rewrite Hd. reflexivity.
  - intros Hty r self' dev' Hc Hok.
    destruct (create_ok dev self desc r self' dev' Hc Hok)
      as (t & Ht & _ & _ & Hs & _).
    exists t. split; [exact Ht|]. now rewrite Hs, Hty.
  - intros Hcube Hs Hm Hcalc Himg Hview.
    assert (Hp : passesChecks desc = true).
    { unfold passesChecks, normalizedMipLevels. rewrite Hcube, Hm. cbn.
      rewrite andb_false_r. cbn. now apply N.leb_le. }
    split; [exact Hp|].
    exact (create_succeeds dev self desc Hp Himg Hview).
Qed.

(** ** The upload loops *)

Lemma repack_spec mem self data bpr lin :
  linearFits self = true ->
  length lin
  = N.to_nat (imageRowWidth self * TextureDesc.height (desc_ self)) ->
  repack mem self data bpr (imageRowWidth self) lin
  = Some (packedRows mem data bpr (imageRowWidth self)
            (N.to_nat (TextureDesc.height (desc_ self))) 0).
Proof.
  unfold linearFits, repack. intros Hfit Hlen.
  apply andb_true_iff in Hfit as [Hh Hsz].
  apply N.ltb_lt in Hh, Hsz.
  destruct (2 ^ 32 <=? _) eqn:Hge; [apply N.leb_le in Hge; lia|].
  apply (repackRows_spec mem data bpr (imageRowWidth self)
           (N.to_nat (TextureDesc.height (desc_ self))) 0 [] lin).
  - reflexivity.
  - rewrite Hlen. lia.
  - rewrite N2Nat.id. lia.
Qed.

Lemma sliceBytes_small (x : N) : x < 2 ^ sliceBytesBits -> sliceBytes x = x.
Proof. intros Hx. unfold sliceBytes. now apply N.mod_small. Qed.

Lemma addMipSlices_sum desc range levels :
  forall i acc,
    acc + fold_right N.add 0
            (map (fun k =>
                    getTextureBytesPerSlice (TextureRangeDesc.width range)
                      (TextureRangeDesc.height range)
                      (TextureRangeDesc.depth range)
                      (TextureDesc.format desc) (i + k))
                 (indices levels))
    < 2 ^ sliceBytesBits ->
    addMipSlices desc range levels i acc
    = acc + fold_right N.add 0
              (map (fun k =>
                      getTextureBytesPerSlice (TextureRangeDesc.width range)
                        (TextureRangeDesc.height range)
                        (TextureRangeDesc.depth range)
                        (TextureDesc.format desc) (i + k))
                   (indices levels)).
Proof.
  induction levels as [|levels IH]; intros i acc; cbn [addMipSlices].
  - cbn. lia.
  - rewrite indices_S. cbn [map fold_right]. rewrite map_map, N.add_0_r.
    assert (Hext : forall k,
      getTextureBytesPerSlice (TextureRangeDesc.width range)
        (TextureRangeDesc.height range) (TextureRangeDesc.depth range)
        (TextureDesc.format desc) (i + N.succ k)
      = getTextureBytesPerSlice (TextureRangeDesc.width range)
          (TextureRangeDesc.height range) (TextureRangeDesc.depth range)
          (TextureDesc.format desc) (i + 1 + k)).
    { intros k. f_equal. lia. }
    rewrite (map_ext _ _ Hext). intros Hfit.
    rewrite sliceBytes_small by lia.
    rewrite IH by lia. lia.
Qed.

Lemma mipSpanBytes_mipChain desc range :
  1 <= TextureRangeDesc.numMipLevels range ->
  mipSpanBytes desc range = mipChainBytes desc range.
Proof.
  intros Hm. unfold mipSpanBytes, mipChainBytes, sliceSum.
  now rewrite N.max_l by lia.
Qed.

Lemma byteIncrement_mipSpan self range :
  2 <= TextureRangeDesc.numLayers range ->
  mipSpanBytes (desc_ self) range < 2 ^ sliceBytesBits ->
  byteIncrement self range = mipSpanBytes (desc_ self) range.
Proof.
  unfold byteIncrement, mipSpanBytes, sliceSum, numLayers. intros Hl.
  destruct (1 <? _) eqn:Hlt.
  2: { apply N.ltb_ge in Hlt. lia. }
  replace (N.to_nat (N.max (TextureRangeDesc.numMipLevels range) 1))
    with (S (N.to_nat (TextureRangeDesc.numMipLevels range) - 1)) by lia.
  rewrite indices_S. cbn [map fold_right]. rewrite map_map.
  assert (Hext : forall k,
    getTextureBytesPerSlice (TextureRangeDesc.width range)
      (TextureRangeDesc.height range) (TextureRangeDesc.depth range)
      (TextureDesc.format (desc_ self)) (N.succ k)
    = getTextureBytesPerSlice (TextureRangeDesc.width range)
        (TextureRangeDesc.height range) (TextureRangeDesc.depth range)
        (TextureDesc.format (desc_ self)) (1 + k)).
  { intros k. f_equal. lia. }
  rewrite (map_ext _ _ Hext). intros Hfit.
  rewrite sliceBytes_small by lia.
  now rewrite addMipSlices_sum.
Qed.

Lemma sourcePointer_small (k : nat) :
  forall data inc,
    data + N.of_nat k * inc < 2 ^ 64 ->
    sourcePointer data inc k = data + N.of_nat k * inc.
Proof.
  induction k as [|k IH]; intros data inc Hfit; cbn [sourcePointer].
  - lia.
  - rewrite usize_small by lia. rewrite IH by lia. lia.
Qed.

Lemma uploadLayers_spec mem self t range bpr inc layers :
  texture_ self = Some t ->
  isAligned self bpr = true \/ linearFits self = true ->
  forall i data lin dev,
    (isAligned self bpr = false ->
     length lin
     = N.to_nat (imageRowWidth self * TextureDesc.height (desc_ self))) ->
    uploadLayers mem self range (isAligned self bpr) (imageRowWidth self) bpr
      inc layers i data lin dev
    = Some (stageAll
              (map (fun k =>
                      layerTransfer self t range (i + k)
                        (layerSource mem self bpr
                           (sourcePointer data inc (N.to_nat k))))
                   (indices layers))
              dev).
Proof.
  intros Ht Hfit.
  induction layers as [|layers IH]; intros i data lin dev Hlen;
    cbn [uploadLayers].
  - reflexivity.
  - rewrite indices_S. cbn [map stageAll fold_left].
    rewrite N.add_0_r, map_map.
    change (sourcePointer data inc (N.to_nat 0)) with data.
    assert (Hstep : forall k,
      layerTransfer self t range (i + 1 + k)
        (layerSource mem self bpr
           (sourcePointer (usize (data + inc)) inc (N.to_nat k)))
      = layerTransfer self t range (i + N.succ k)
          (layerSource mem self bpr
             (sourcePointer data inc (N.to_nat (N.succ k))))).
    { intros k. rewrite N2Nat.inj_succ. cbn [sourcePointer].
      f_equal. lia. }
    rewrite <- (map_ext _ _ Hstep).
    fold (stageAll
            (map (fun k => layerTransfer self t range (i + 1 + k)
                             (layerSource mem self bpr
                                (sourcePointer (usize (data + inc)) inc
                                   (N.to_nat k))))
                 (indices layers))
            (stage (layerTransfer self t range i (layerSource mem self bpr data)) dev)).
    unfold layerSource at 2.
    destruct (isAligned self bpr) eqn:Hal.
    + rewrite Ht. apply IH. intros; discriminate.
    + destruct Hfit as [Hfit | Hfit]; [discriminate|].
      rewrite (repack_spec mem self data bpr lin Hfit (Hlen eq_refl)).
      rewrite Ht. apply IH. intros _.
      rewrite length_packedRows. lia.
Qed.



Lemma upload_valid mem dev self t range data bpr :
  data <> 0 ->
  rangeInBounds self range = true ->
  texture_ self = Some t ->
  TextureRangeDesc.numLayers range <= INT_MAX ->
  TextureRangeDesc.numMipLevels range <= INT_MAX ->
  isAligned self bpr = true \/ linearFits self = true ->
  upload mem dev self range data bpr
  = Some (ResultOk,
          stageAll
            (map (fun i =>
                    layerTransfer self t range i
                      (layerSource mem self bpr
                         (sourcePointer data (byteIncrement self range)
                            (N.to_nat i))))
                 (indices (N.to_nat (numLayers range))))
            dev).
Proof.
  intros Hd Hr Ht Hl Hm Hfit. unfold upload.
  destruct (data =? 0) eqn:Hd0; [apply N.eqb_eq in Hd0; contradiction|].
  rewrite (validateRange_ok _ _ Hr). cbn [Result.isOk Result.code ResultOk negb].
  destruct (INT_MAX <? TextureRangeDesc.numMipLevels range) eqn:Hm';
    [apply N.ltb_lt in Hm'; lia|].
  assert (Hn : numLayers range <= INT_MAX).
  { unfold numLayers, INT_MAX in *. cbn in *. lia. }
  destruct (INT_MAX <? numLayers range) eqn:Hl';
    [apply N.ltb_lt in Hl'; lia|].
  rewrite (uploadLayers_spec mem self t range bpr (byteIncrement self range)
             (N.to_nat (numLayers range)) Ht Hfit).
  - f_equal.
  - intros Hal. rewrite Hal, length_replicate.
    destruct Hfit as [Hfit | Hfit]; [congruence|].
    unfold linearFits in Hfit. apply andb_true_iff in Hfit as [_ Hsz].
    apply N.ltb_lt in Hsz. now rewrite usize_small.
Qed.


Lemma u32_layer (layer n i : N) :
  layer + n <= 2 ^ 32 -> i < n -> u32 (u32 layer + i) = layer + i.
Proof.
  intros Hb Hi. rewrite (u32_small layer) by lia. apply u32_small. lia.
Qed.

Lemma indices_lt (n : nat) (i : N) : In i (indices n) -> i < N.of_nat n.
Proof.
  unfold indices. rewrite in_map_iff. intros (k & <- & Hk).
  apply in_seq in Hk. lia.
Qed.

(** C5.  A valid upload of n >= 2 layers, whose mip-chain size fits the type
    of the accumulator and whose source lies within the address space,
    records one transfer per layer, in the order of the layers.  The source
    of the transfer for layer i starts i x S bytes after the caller's
    pointer: on the aligned path the pointer handed over is that address,
    on the unaligned path the rows are repacked from it.  S is the sum of
    the slice sizes of the mip span for the range's extent and the
    texture's format, a span of 0 counting as 1; for a span of at least one
    level that is the sum over the levels 0 .. numMipLevels-1.  For a
    non-volumetric image transfer i goes to layer [layer + i]. *)
Theorem upload_layers_in_order (mem : Memory) (dev : DeviceState)
    (self : Texture) (t : VulkanTexture) (range : TextureRangeDesc.t)
    (data bytesPerRow : N) :
  data <> 0 ->
  rangeInBounds self range = true ->
  texture_ self = Some t ->
  2 <= TextureRangeDesc.numLayers range <= INT_MAX ->
  TextureRangeDesc.numMipLevels range <= INT_MAX ->
  isAligned self bytesPerRow = true \/ linearFits self = true ->
  mipSpanBytes (desc_ self) range < 2 ^ sliceBytesBits ->
  data + TextureRangeDesc.numLayers range * mipSpanBytes (desc_ self) range
  < 2 ^ 64 ->
  exists dev' new,
    upload mem dev self range data bytesPerRow = Some (ResultOk, dev')
    /\ stagedTransfers dev' = stagedTransfers dev ++ new
    /\ length new = N.to_nat (TextureRangeDesc.numLayers range)
    /\ map transferData new
       = map (fun i =>
                layerSource mem self bytesPerRow
                  (data + i * mipSpanBytes (desc_ self) range))
             (indices (N.to_nat (TextureRangeDesc.numLayers range)))
    /\ (isAligned self bytesPerRow = true ->
        map transferData new
        = map (fun i =>
                 CallerData (data + i * mipSpanBytes (desc_ self) range))
              (indices (N.to_nat (TextureRangeDesc.numLayers range))))
    /\ (1 <= TextureRangeDesc.numMipLevels range ->
        mipSpanBytes (desc_ self) range = mipChainBytes (desc_ self) range)
    /\ (type_ (image_ t) = VK_IMAGE_TYPE_2D ->
        TextureRangeDesc.layer range + TextureRangeDesc.numLayers range <= 2 ^ 32 ->
        map transferLayer new
        = map (fun i => Some (TextureRangeDesc.layer range + i))
              (indices (N.to_nat (TextureRangeDesc.numLayers range))))
    /\ new
       = map (fun i =>
                layerTransfer self t range i
                  (layerSource mem self bytesPerRow
                     (data + i * mipSpanBytes (desc_ self) range)))
             (indices (N.to_nat (TextureRangeDesc.numLayers range))).
Proof.
  intros Hd Hr Ht [Hl2 Hl] Hm Hfit Hsum Haddr.
  assert (Hn : numLayers range = TextureRangeDesc.numLayers range).
  { unfold numLayers. lia. }
  assert (Hnew :
    map (fun i =>
           layerTransfer self t range i
             (layerSource mem self bytesPerRow
                (sourcePointer data (byteIncrement self range) (N.to_nat i))))
        (indices (N.to_nat (numLayers range)))
    = map (fun i =>
             layerTransfer self t range i
               (layerSource mem self bytesPerRow
                  (data + i * mipSpanBytes (desc_ self) range)))
          (indices (N.to_nat (TextureRangeDesc.numLayers range)))).
  { rewrite Hn, (byteIncrement_mipSpan self range Hl2 Hsum).
    apply map_ext_in. intros i Hi. apply indices_lt in Hi.
    rewrite sourcePointer_small; rewrite N2Nat.id; [reflexivity|].
    generalize dependent (mipSpanBytes (desc_ self) range). intros S _ Haddr.
    nia. }
  assert (Hdata : forall i u,
    transferData (layerTransfer self t range i u) = u).
  { intros i u. unfold layerTransfer. now destruct (type_ (image_ t)). }
  eexists _, _. split; [|split; [|split; [|split; [|split; [|split; [|split]]]]]].
  - apply (upload_valid mem dev self t range data bytesPerRow Hd Hr Ht Hl Hm Hfit).
  - apply stagedTransfers_stageAll.
  - rewrite length_map. unfold indices. rewrite length_map, length_seq.
    now rewrite Hn.
  - rewrite Hnew, map_map. apply map_ext. intros i. apply Hdata.
  - intros Hal. rewrite Hnew, map_map. apply map_ext. intros i.
    rewrite Hdata. unfold layerSource. now rewrite Hal.
  - apply mipSpanBytes_mipChain.
  - intros H2d Hb. rewrite Hnew, map_map. apply map_ext_in. intros i Hi.
    apply indices_lt in Hi. unfold layerTransfer. rewrite H2d.
    cbn [transferLayer]. f_equal.
    apply (u32_layer _ (TextureRangeDesc.numLayers range)); lia.
  - exact Hnew.
Qed.


(** ** The framebuffer view cache *)

Lemma getView_hit dev self level v :
  cachedView self level = Some v ->
  getVkImageViewForFramebuffer dev self level = Some (vkImageView_ v, self, dev).
Proof.
  unfold cachedView, getVkImageViewForFramebuffer.
  destruct (imageViewForFramebuffer_ self !! N.to_nat level) as [[v'|]|];
    intros Heq; inversion Heq; subst; reflexivity.
Qed.

(** The vector after the growth step of a call that goes on to store. *)
Lemma grown_lookup (cache : list (option VulkanImageView)) (level : N) (i : nat) :
  let cache' :=
    if N.of_nat (length cache) <=? level
    then resize (N.to_nat (u32 (level + 1))) None cache
    else cache in
  (N.of_nat (length cache') <=? level) = false ->
  match cache' !! i with Some (Some view) => Some view | _ => None end
  = match cache !! i with Some (Some view) => Some view | _ => None end.
Proof.
  intros cache'. subst cache'.
  destruct (N.of_nat (length cache) <=? level) eqn:Hle; [|reflexivity].
  intros Hgt. apply N.leb_le in Hle. apply N.leb_gt in Hgt.
  rewrite length_resize in Hgt.
  rewrite resize_ge by lia.
  destruct (decide (i < length cache)%nat) as [Hi | Hi].
  - now rewrite lookup_app_l.
  - rewrite lookup_app_r by lia.
    rewrite (lookup_ge_None_2 cache i) by lia.
    destruct (replicate _ _ !! _) as [o|] eqn:Hrep; [|reflexivity].
    apply lookup_replicate in Hrep as [-> _]. reflexivity.
Qed.

Lemma getView_miss dev self t level v dev1 :
  texture_ self = Some t ->
  level + 1 < 2 ^ 32 ->
  cachedView self level = None ->
  createImageView dev (image_ t) VK_IMAGE_VIEW_TYPE_2D
    (textureFormatToVkFormat (TextureDesc.format (desc_ self)))
    (getImageAspectFlags (image_ t)) level 1 0 1 "" = (Some v, dev1) ->
  exists self1,
    getVkImageViewForFramebuffer dev self level = Some (vkImageView_ v, self1, dev1)
    /\ cachedView self1 level = Some v
    /\ texture_ self1 = Some t
    /\ desc_ self1 = desc_ self.
Proof.
  intros Ht Hlevel Hmiss Hview.
  unfold getVkImageViewForFramebuffer, cachedView in *.
  set (cache := imageViewForFramebuffer_ self) in *.
  set (cache' := if N.of_nat (length cache) <=? level
                 then resize (N.to_nat (u32 (level + 1))) None cache
                 else cache).
  assert (Hlen : (N.of_nat (length cache') <=? level) = false).
  { subst cache'. apply N.leb_gt.
    destruct (N.of_nat (length cache) <=? level) eqn:Hle.
    - rewrite length_resize, u32_small by lia. lia.
    - apply N.leb_gt in Hle. lia. }
  destruct (cache !! N.to_nat level) as [[v'|]|] eqn:Hl; [discriminate| |].
  all: rewrite Ht, Hview, Hlen.
  all: eexists; split; [reflexivity|].
  all: cbn [imageViewForFramebuffer_ set_imageViewForFramebuffer_ texture_ desc_].
  all: rewrite list_lookup_insert_eq; [auto|].
  all: apply N.leb_gt in Hlen; lia.
Qed.

Lemma getView_other dev self level h self' dev' :
  getVkImageViewForFramebuffer dev self level = Some (h, self', dev') ->
  texture_ self' = texture_ self
  /\ desc_ self' = desc_ self
  /\ forall other, other <> level -> cachedView self' other = cachedView self other.
Proof.
  unfold getVkImageViewForFramebuffer.
  destruct (imageViewForFramebuffer_ self !! N.to_nat level) as [[v'|]|] eqn:Hl.
  { intros Heq; inversion Heq; subst; auto. }
  all: destruct (texture_ self) as [t|] eqn:Ht; [|discriminate].
  all: destruct (createImageView _ _ _ _ _ _ _ _ _ _) as [[v|] dev1].
  all: destruct (N.of_nat (length _) <=? level) eqn:Hlen at 1; try discriminate.
  all: intros Heq; inversion Heq; subst; clear Heq.
  all: split; [exact Ht|split; [reflexivity|]].
  all: intros other Hne; unfold cachedView;
    cbn [imageViewForFramebuffer_ set_imageViewForFramebuffer_].
  all: rewrite list_lookup_insert_ne by (intros Heq; apply N2Nat.inj in Heq; congruence).
  all: apply grown_lookup; exact Hlen.
Qed.

Lemma getViews_keeps dev self levels :
  forall self2 dev2,
    getViews dev self levels = Some (self2, dev2) ->
    texture_ self2 = texture_ self
    /\ forall level v, cachedView self level = Some v -> cachedView self2 level = Some v.
Proof.
  revert dev self. induction levels as [|l levels IH]; intros dev self self2 dev2;
    cbn [getViews].
  - intros Heq; inversion Heq; subst. auto.
  - destruct (getVkImageViewForFramebuffer dev self l) as [[[h self1] dev1]|] eqn:Hcall;
      [|discriminate].
    intros Hrun. destruct (IH _ _ _ _ Hrun) as [Ht Hkeep].
    destruct (getView_other _ _ _ _ _ _ Hcall) as (Ht1 & _ & Hother).
    split; [congruence|].
    intros level v Hv. apply Hkeep.
    destruct (N.eq_dec level l) as [-> | Hne].
    + rewrite (getView_hit dev self l v Hv) in Hcall.
      inversion Hcall; subst. exact Hv.
    + now rewrite Hother.
Qed.


(** C8.  A call for a level never changes what is cached for another level.
    The first call for a level, on a texture that has its image, creates
    exactly one view, of one mip level (the requested one) and one layer,
    with the aspect flags of the image, which are those of the primary view
    [create] made; it stores the view in the cache under the level and
    returns its handle.  After any further calls, for any levels, a call for
    the same level returns that handle again and changes neither the device
    nor the texture. *)
Theorem framebuffer_view_is_cached (dev : DeviceState) (self : Texture) (level : N) :
  (forall h self' dev',
     getVkImageViewForFramebuffer dev self level = Some (h, self', dev') ->
     forall other, other <> level -> cachedView self' other = cachedView self other)
  /\ (forall t v dev1,
        texture_ self = Some t ->
        level + 1 < 2 ^ 32 ->
        cachedView self level = None ->
        createImageView dev (image_ t) VK_IMAGE_VIEW_TYPE_2D
          (textureFormatToVkFormat (TextureDesc.format (desc_ self)))
          (getImageAspectFlags (image_ t)) level 1 0 1 "" = (Some v, dev1) ->
        exists self1,
          getVkImageViewForFramebuffer dev self level
          = Some (vkImageView_ v, self1, dev1)
          /\ createdViews dev1 = createdViews dev ++ [v]
          /\ baseLevel_ v = level /\ viewNumLevels_ v = 1
          /\ baseLayer_ v = 0 /\ viewNumLayers_ v = 1
          /\ aspectMask_ v = getImageAspectFlags (image_ t)
          /\ (forall dev0 self0 desc r selfc devc,
                create dev0 self0 desc = (r, selfc, devc) ->
                Result.isOk r = true ->
                texture_ selfc = Some t ->
                aspectMask_ v = aspectMask_ (imageView_ t))
          /\ cachedView self1 level = Some v
          /\ (forall levels self2 dev2,
                getViews dev1 self1 levels = Some (self2, dev2) ->
                getVkImageViewForFramebuffer dev2 self2 level
                = Some (vkImageView_ v, self2, dev2))).
Proof.
  split.
  - intros h self' dev' Hcall.
    now destruct (getView_other _ _ _ _ _ _ Hcall) as (_ & _ & Hother).
  - intros t v dev1 Ht Hlevel Hmiss Hview.
    destruct (getView_miss dev self t level v dev1 Ht Hlevel Hmiss Hview)
      as (self1 & Hcall & Hcached & _ & _).
    destruct (createImageView_some _ _ _ _ _ _ _ _ _ _ _ _ Hview)
      as (_ & Hviews & _ & Haspect & Hbase & Hlevels & Hlayer & Hlayers & _ & _).
    exists self1. repeat split; try assumption.
    + intros dev0 self0 desc r selfc devc Hc Hok Htc.
      destruct (create_ok dev0 self0 desc r selfc devc Hc Hok)
        as (t' & Ht' & _ & Hprimary & _).
      rewrite Htc in Ht'. inversion Ht'; subst t'. congruence.
    + intros levels self2 dev2 Hrun.
      destruct (getViews_keeps _ _ _ _ _ Hrun) as [_ Hkeep].
      apply getView_hit. now apply Hkeep.
Qed.

End TextureProperties.

(** * Further properties *)

Lemma land_single_bit (u : N) (k : N) :
  (N.land u (2 ^ k) =? 0) = negb (N.testbit u k).
Proof.
  destruct (N.testbit u k) eqn:Hb; cbn [negb].
  - apply N.eqb_neq. intros H0.
    assert (Hk : N.testbit (N.land u (2 ^ k)) k = true).
    { rewrite N.land_spec, Hb, N.pow2_bits_true. reflexivity. }
    rewrite H0 in Hk. now rewrite N.bits_0 in Hk.
  - apply N.eqb_eq. apply N.bits_inj. intros j.
    rewrite N.land_spec, N.bits_0, N.pow2_bits_eqb.
    destruct (N.eqb_spec k j) as [-> | Hne].
    + now rewrite Hb.
    + apply andb_false_r.
Qed.

Lemma read_lookup (mem : Memory) (p n k : N) :
  k < n -> read mem p n !! N.to_nat k = Some (mem (p + k)).
Proof.
  intros Hk. unfold read.
  rewrite list_lookup_fmap, lookup_seq_lt by lia.
  cbn. now rewrite N2Nat.id.
Qed.

Lemma packedRows_lookup mem data bpr irw rows :
  forall h0 h k,
    (N.to_nat h < rows)%nat -> k < irw ->
    packedRows mem data bpr irw rows h0 !! N.to_nat (h * irw + k)
    = Some (mem (data + usize ((h0 + h) * bpr) + k)).
Proof.
  induction rows as [|rows IH]; intros h0 h k Hh Hk; [lia|].
  cbn [packedRows].
  destruct (N.eq_dec h 0) as [-> | Hne].
  - rewrite lookup_app_l by (rewrite length_read; lia).
    rewrite N.add_0_r, N.mul_0_l, N.add_0_l. now apply read_lookup.
  - assert (Hsplit : h * irw = (h - 1) * irw + irw).
    { rewrite <- N.mul_succ_l. f_equal. lia. }
    rewrite lookup_app_r
      by (rewrite length_read, Hsplit; generalize ((h - 1) * irw); intros q; lia).
    rewrite length_read.
    replace (N.to_nat (h * irw + k) - N.to_nat irw)%nat
      with (N.to_nat ((h - 1) * irw + k))
      by (rewrite Hsplit; generalize ((h - 1) * irw); intros q; lia).
    rewrite IH by lia.
    replace (h0 + 1 + (h - 1)) with (h0 + h) by lia. reflexivity.
Qed.

(** ** The XOR pattern *)

Lemma lxor_lt_256 x y : x < 256 -> y < 256 -> N.lxor x y < 256.
Proof.
  intros Hx Hy.
  destruct (N.eq_dec (N.lxor x y) 0) as [-> | Hnz]; [lia|].
  change 256 with (2 ^ 8). apply N.log2_lt_pow2; [lia|].
  pose proof (N.log2_lxor x y) as Hl.
  assert (Hlx : N.log2 x < 8).
  { destruct (N.eq_dec x 0) as [-> | Hx0]; [cbn; lia|].
    apply N.log2_lt_pow2; [lia | exact Hx]. }
  assert (Hly : N.log2 y < 8).
  { destruct (N.eq_dec y 0) as [-> | Hy0]; [cbn; lia|].
    apply N.log2_lt_pow2; [lia | exact Hy]. }
  lia.
Qed.

Lemma xorPixel_small x y :
  x < 256 -> y < 256 ->
  xorPixel x y = 4278190080 + 65793 * N.lxor x y.
Proof.
  intros Hx Hy. pose proof (lxor_lt_256 x y Hx Hy) as Hv.
  unfold xorPixel. rewrite !N.shiftl_mul_pow2.
  change (2 ^ 16) with 65536. change (2 ^ 8) with 256.
  change 0xFF000000 with 4278190080.
  generalize dependent (N.lxor x y). intros v Hv.
  rewrite (u32_small (v * 65536)) by lia.
  rewrite (u32_small (v * 256)) by lia.
  rewrite (u32_small (4278190080 + v * 65536)) by lia.
  rewrite (u32_small (4278190080 + v * 65536 + v * 256)) by lia.
  rewrite u32_small by lia. lia.
Qed.

Lemma fillRow_spec texWidth y count :
  forall x pixels,
    x + N.of_nat count = texWidth ->
    y * texWidth + texWidth <= N.of_nat (length pixels) ->
    y * texWidth + texWidth < 2 ^ 32 ->
    exists pixels',
      fillRow texWidth y count x pixels = Some pixels'
      /\ length pixels' = length pixels
      /\ (forall i, i < y * texWidth + x \/ y * texWidth + texWidth <= i ->
            pixels' !! N.to_nat i = pixels !! N.to_nat i)
      /\ (forall x', x <= x' < texWidth ->
            pixels' !! N.to_nat (y * texWidth + x') = Some (xorPixel x' y)).
Proof.
  induction count as [|count IH]; intros x pixels Hcount Hlen Hmax;
    cbn [fillRow].
  - exists pixels. repeat split; auto. intros x' Hx'. lia.
  - unfold storePixel.
    set (row := y * texWidth) in *. clearbody row.
    rewrite (u32_small row) by lia.
    rewrite (u32_small (row + x)) by lia.
    rewrite (u32_small (x + 1)) by lia.
    destruct (N.ltb_spec (row + x) (N.of_nat (length pixels))) as [Hin | Hout];
      [|lia].
    destruct (IH (x + 1) (<[N.to_nat (row + x) := xorPixel x y]> pixels))
      as (pixels' & Hrun & Hlen' & Hkeep & Hset).
    + lia.
    + rewrite length_insert. exact Hlen.
    + exact Hmax.
    + exists pixels'. rewrite length_insert in Hlen'.
      split; [exact Hrun|]. split; [exact Hlen'|]. split.
      * intros i Hi. rewrite Hkeep by lia.
        apply list_lookup_insert_ne. lia.
      * intros x' Hx'.
        destruct (N.eq_dec x' x) as [-> | Hne].
        -- rewrite Hkeep by lia. apply list_lookup_insert_eq. lia.
        -- apply Hset. lia.
Qed.

Lemma fillRows_spec texWidth count :
  forall y pixels,
    (y + N.of_nat count) * texWidth = N.of_nat (length pixels) ->
    N.of_nat (length pixels) < 2 ^ 32 ->
    0 < texWidth ->
    exists pixels',
      fillRows texWidth count y pixels = Some pixels'
      /\ length pixels' = length pixels
      /\ (forall i, i < y * texWidth ->
            pixels' !! N.to_nat i = pixels !! N.to_nat i)
      /\ (forall x' y', x' < texWidth -> y <= y' < y + N.of_nat count ->
            pixels' !! N.to_nat (y' * texWidth + x') = Some (xorPixel x' y')).
Proof.
  induction count as [|count IH]; intros y pixels Hlen Hmax Hw;
    cbn [fillRows].
  - exists pixels. repeat split; auto. intros x' y' _ Hy'. lia.
  - assert (Hrow : y * texWidth + texWidth <= N.of_nat (length pixels)) by nia.
    destruct (fillRow_spec texWidth y (N.to_nat texWidth) 0 pixels)
      as (pixels1 & Hrun1 & Hlen1 & Hkeep1 & Hset1); [lia | exact Hrow | lia |].
    rewrite Hrun1.
    assert (Hy : y + 1 < 2 ^ 32) by nia.
    rewrite (u32_small (y + 1)) by exact Hy.
    destruct (IH (y + 1) pixels1) as (pixels' & Hrun & Hlen' & Hkeep & Hset).
    + rewrite Hlen1, <- Hlen. f_equal. lia.
    + rewrite Hlen1. exact Hmax.
    + exact Hw.
    + exists pixels'. split; [exact Hrun|]. split; [congruence|]. split.
      * intros i Hi. rewrite Hkeep by nia. apply Hkeep1. lia.
      * intros x' y' Hx' Hy'.
        destruct (N.eq_dec y' y) as [-> | Hne].
        -- rewrite Hkeep by nia. apply Hset1. lia.
        -- apply Hset; lia.
Qed.

(** X20.  Every pixel of the XOR pattern whose coordinates are below 256 is
    opaque and grey: its top byte is 255 and its three lower bytes all equal
    [x xor y], with no [uint32_t] wrap-around; the pattern is symmetric in
    [x] and [y]. *)
Theorem xorPixel_channels (x y : N) :
  x < 256 -> y < 256 ->
  N.shiftr (xorPixel x y) 24 = 255
  /\ N.land (N.shiftr (xorPixel x y) 16) 255 = N.lxor x y
  /\ N.land (N.shiftr (xorPixel x y) 8) 255 = N.lxor x y
  /\ N.land (xorPixel x y) 255 = N.lxor x y
  /\ xorPixel x y = xorPixel y x.
Proof.
  intros Hx Hy. pose proof (lxor_lt_256 x y Hx Hy) as Hv.
  split; [|split; [|split; [|split]]].
  5: { unfold xorPixel. now rewrite (N.lxor_comm x y). }
  all: rewrite (xorPixel_small x y Hx Hy);
    generalize dependent (N.lxor x y); intros v Hv;
    rewrite ?N.shiftr_div_pow2;
    change 255 with (N.ones 8); rewrite ?N.land_ones;
    change (2 ^ 24) with 16777216; change (2 ^ 16) with 65536;
    change (2 ^ 8) with 256; change (N.ones 8) with 255;
    zify; Z.to_euclidean_division_equations; lia.
Qed.

(** X21.  The two loops of the sample initialise the whole vector: for a
    non-empty texture whose pixel count fits [uint32_t], they terminate
    without a store outside the vector, the vector keeps its
    [texWidth * texHeight] elements, and the element at [y * texWidth + x]
    is the pattern's pixel for [(x, y)]. *)
Theorem xorPattern_filled (texWidth texHeight : N) :
  0 < texWidth ->
  texWidth * texHeight < 2 ^ 32 ->
  exists pixels,
    xorPattern texWidth texHeight = Some pixels
    /\ N.of_nat (length pixels) = texWidth * texHeight
    /\ forall x y, x < texWidth -> y < texHeight ->
         pixels !! N.to_nat (y * texWidth + x) = Some (xorPixel x y).
Proof.
  intros Hw Hmax. unfold xorPattern.
  rewrite (u32_small (texWidth * texHeight)) by exact Hmax.
  destruct (fillRows_spec texWidth (N.to_nat texHeight) 0
              (replicate (N.to_nat (texWidth * texHeight)) 0))
    as (pixels & Hrun & Hlen & _ & Hset).
  - rewrite length_replicate. lia.
  - rewrite length_replicate. lia.
  - exact Hw.
  - exists pixels. split; [exact Hrun|]. split.
    + rewrite Hlen, length_replicate. lia.
    + intros x y Hx Hy. apply Hset; lia.
Qed.

Section MoreTextureProperties.
Context {ext : Externals}.

Lemma imageUsageFlags_bits (d : TextureDesc.t) (k : N) :
  N.testbit (imageUsageFlags d) k
  = if k =? 0 then true
    else if k =? 1 then isPrivate (TextureDesc.storage d)
    else if k =? 2
      then negb (N.land (TextureDesc.usage d) TextureDesc.TextureUsageBits.Sampled =? 0)
    else if k =? 3
      then negb (N.land (TextureDesc.usage d) TextureDesc.TextureUsageBits.Storage =? 0)
    else if k =? 4
      then negb (N.land (TextureDesc.usage d) TextureDesc.TextureUsageBits.Attachment =? 0)
           && negb (isDepthOrStencilFormat (TextureDesc.format d))
    else if k =? 5
      then negb (N.land (TextureDesc.usage d) TextureDesc.TextureUsageBits.Attachment =? 0)
           && isDepthOrStencilFormat (TextureDesc.format d)
    else false.
Proof.
  unfold imageUsageFlags.
  destruct (N.land _ TextureDesc.TextureUsageBits.Sampled =? 0);
  destruct (N.land _ TextureDesc.TextureUsageBits.Storage =? 0);
  destruct (N.land _ TextureDesc.TextureUsageBits.Attachment =? 0);
  destruct (isDepthOrStencilFormat _);
  destruct (TextureDesc.storage d); cbn [negb andb isPrivate];
  rewrite ?N.lor_spec;
  change VK_IMAGE_USAGE_TRANSFER_SRC_BIT with (2 ^ 0);
  change VK_IMAGE_USAGE_TRANSFER_DST_BIT with (2 ^ 1);
  change VK_IMAGE_USAGE_SAMPLED_BIT with (2 ^ 2);
  change VK_IMAGE_USAGE_STORAGE_BIT with (2 ^ 3);
  change VK_IMAGE_USAGE_COLOR_ATTACHMENT_BIT with (2 ^ 4);
  change VK_IMAGE_USAGE_DEPTH_STENCIL_ATTACHMENT_BIT with (2 ^ 5);
  rewrite ?N.pow2_bits_eqb, ?N.bits_0.
  all: destruct (N.eqb_spec 0 k) as [<- | H0]; [reflexivity|];
    rewrite (proj2 (N.eqb_neq k 0)) by lia.
  all: destruct (N.eqb_spec 1 k) as [<- | H1]; [reflexivity|];
    rewrite (proj2 (N.eqb_neq k 1)) by lia.
  all: destruct (N.eqb_spec 2 k) as [<- | H2]; [reflexivity|];
    rewrite (proj2 (N.eqb_neq k 2)) by lia.
  all: destruct (N.eqb_spec 3 k) as [<- | H3]; [reflexivity|];
    rewrite (proj2 (N.eqb_neq k 3)) by lia.
  all: destruct (N.eqb_spec 4 k) as [<- | H4]; [reflexivity|];
    rewrite (proj2 (N.eqb_neq k 4)) by lia.
  all: destruct (N.eqb_spec 5 k) as [<- | H5]; [reflexivity|];
    rewrite (proj2 (N.eqb_neq k 5)) by lia.
  all: reflexivity.
Qed.

Ltac simpl_desc :=
  cbn [desc_ set_desc_ texture_ set_texture_ imageViewForFramebuffer_
       TextureDesc.numMipLevels TextureDesc.with_numMipLevels
       TextureDesc.type TextureDesc.format TextureDesc.width TextureDesc.height
       TextureDesc.depth TextureDesc.numLayers TextureDesc.numSamples
       TextureDesc.usage TextureDesc.storage TextureDesc.debugName
       TextureDesc.with_usage] in *.

Lemma create_ok_objects dev self desc r self' dev' :
  create dev self desc = (r, self', dev') ->
  Result.isOk r = true ->
  exists image view,
    self' = {| desc_ := normalizedDesc desc;
               texture_ := Some {| image_ := image; imageView_ := view |};
               imageViewForFramebuffer_ := imageViewForFramebuffer_ self |}
    /\ dev' = {| createdImages := createdImages dev ++ [image];
                 createdViews := createdViews dev ++ [view];
                 stagedTransfers := stagedTransfers dev |}
    /\ image
       = {| vkImage_ := freshHandle (createdImages dev);
            type_ := match TextureDesc.type desc with
                     | ThreeD => VK_IMAGE_TYPE_3D
                     | _ => VK_IMAGE_TYPE_2D
                     end;
            extent_ := {| extent_width := u32 (TextureDesc.width desc);
                          extent_height := u32 (TextureDesc.height desc);
                          extent_depth := u32 (TextureDesc.depth desc) |};
            imageFormat_ :=
              if isDepthOrStencilFormat (TextureDesc.format desc)
              then getClosestDepthStencilFormat (TextureDesc.format desc)
              else textureFormatToVkFormat (TextureDesc.format desc);
            numLevels_ := u32 (normalizedMipLevels desc);
            numLayers_ := match TextureDesc.type desc with
                          | Cube => u32 (u32 (TextureDesc.numLayers desc) * 6)
                          | _ => u32 (TextureDesc.numLayers desc)
                          end;
            tiling_ := VK_IMAGE_TILING_OPTIMAL;
            usageFlags_ := imageUsageFlags (normalizedDesc desc);
            memFlags_ :=
              resourceStorageToVkMemoryPropertyFlags (TextureDesc.storage desc);
            createFlags_ := match TextureDesc.type desc with
                            | Cube => VK_IMAGE_CREATE_CUBE_COMPATIBLE_BIT
                            | _ => 0
                            end;
            samples_ := match TextureDesc.type desc with
                        | TwoD => getVulkanSampleCountFlags
                                    (TextureDesc.numSamples desc)
                        | _ => VK_SAMPLE_COUNT_1_BIT
                        end;
            imageName_ := formatName "Image: " (TextureDesc.debugName desc) |}
    /\ view
       = {| vkImageView_ := freshHandle (createdViews dev);
            viewImage_ := vkImage_ image;
            viewType_ := match TextureDesc.type desc with
                         | ThreeD => VK_IMAGE_VIEW_TYPE_3D
                         | Cube => VK_IMAGE_VIEW_TYPE_CUBE
                         | _ => VK_IMAGE_VIEW_TYPE_2D
                         end;
            viewFormat_ := imageFormat_ image;
            aspectMask_ :=
              if N.land (usageFlags_ image)
                   VK_IMAGE_USAGE_DEPTH_STENCIL_ATTACHMENT_BIT =? 0
              then VK_IMAGE_ASPECT_COLOR_BIT
              else VK_IMAGE_ASPECT_DEPTH_BIT;
            baseLevel_ := 0;
            viewNumLevels_ := VK_REMAINING_MIP_LEVELS;
            baseLayer_ := 0;
            viewNumLayers_ := numLayers_ image;
            viewName_ := formatName "Image View: " (TextureDesc.debugName desc) |}.
Proof.
  destruct desc as [ty fmt w h d nl ns us nm st dn].
  unfold create, normalizedDesc, normalizedUsage, normalizedMipLevels,
    createImage, createImageView.
  simpl_desc. intros Hc Hok.
  destruct (supportedType ty) eqn:Hty; cbn [negb andb] in Hc |- *.
  2: { inversion Hc; subst; discriminate. }
  destruct (nm =? 0) eqn:Hnm; simpl_desc.
  all: destruct ((1 <? ns) && negb (_ =? 1)) eqn:H2 in Hc |- *;
    [inversion Hc; subst; discriminate|].
  all: destruct ((1 <? ns) && match ty with ThreeD => true | _ => false end) eqn:H3;
    [inversion Hc; subst; discriminate|].
  all: cbn [negb andb] in Hc |- *.
  all: destruct (_ <=? calcNumMipLevels w h) eqn:H4; cbn [negb] in Hc;
    [|inversion Hc; subst; discriminate].
  all: destruct (us =? 0) eqn:Hus; simpl_desc.
  all: destruct ty; try discriminate Hty.
  all: match type of Hc with
       | context [createImageOutcome ?a ?b] =>
         destruct (createImageOutcome a b) as [r1 [|]] eqn:Hci
       end.
  all: destruct (Result.isOk r1) eqn:Hr1; cbn [negb] in Hc;
    [|inversion Hc; subst; congruence].
  all: try (inversion Hc; subst; discriminate).
  all: match type of Hc with
       | context [createImageViewOutcome ?a ?b] =>
         destruct (createImageViewOutcome a b) eqn:Hcv
       end.
  all: try (inversion Hc; subst; discriminate).
  all: inversion Hc; subst; clear Hc.
  all: eexists _, _; repeat split; reflexivity.
Qed.

Lemma create_rejected dev self desc :
  passesChecks desc = false ->
  exists r,
    create dev self desc
    = (r,
       set_desc_ (if supportedType (TextureDesc.type desc)
                  then TextureDesc.with_numMipLevels (normalizedMipLevels desc) desc
                  else desc) self,
       dev)
    /\ Result.isOk r = false
    /\ Result.code r
       = (if supportedType (TextureDesc.type desc)
          then Result.ArgumentOutOfRange else Result.Unimplemented).
Proof.
  destruct desc as [ty fmt w h d nl ns us nm st dn].
  unfold passesChecks, normalizedMipLevels, create. simpl_desc.
  destruct (supportedType ty) eqn:Hty; cbn [negb andb].
  2: { intros _. eexists. repeat split. }
  destruct (nm =? 0) eqn:Hnm; simpl_desc.
  all: destruct ((1 <? ns) && negb (_ =? 1)) eqn:H2;
    [intros _; eexists; repeat split|].
  all: destruct ((1 <? ns) && match ty with ThreeD => true | _ => false end) eqn:H3;
    [intros _; eexists; repeat split|].
  all: cbn [negb andb]; intros H4; rewrite H4; cbn [negb].
  all: eexists; repeat split.
Qed.

Ltac close_objects :=
  cbn; repeat split; try lia; try discriminate; try congruence.

Ltac early_return :=
  repeat (split;
          [first [reflexivity
                 | intros; first [reflexivity | discriminate | congruence]]|]);
  first [ exists [], []; rewrite !app_nil_r; close_objects; fail
        | eexists [_], []; rewrite !app_nil_r; close_objects; fail
        | eexists [_], [_]; close_objects; fail ].

Lemma create_any dev self desc :
  let '(r, self', dev') := create dev self desc in
  imageViewForFramebuffer_ self' = imageViewForFramebuffer_ self
  /\ stagedTransfers dev' = stagedTransfers dev
  /\ getDimensions self' = (TextureDesc.width desc, TextureDesc.height desc,
                            TextureDesc.depth desc)
  /\ getType self' = TextureDesc.type desc
  /\ getNumLayers self' = TextureDesc.numLayers desc
  /\ getSamples self' = TextureDesc.numSamples desc
  /\ (Result.isOk r = false -> texture_ self' = texture_ self)
  /\ (exists images views,
        createdImages dev' = createdImages dev ++ images
        /\ createdViews dev' = createdViews dev ++ views
        /\ (length views <= length images <= 1)%nat
        /\ (Result.isOk r = true -> length views = 1%nat)).
Proof.
  destruct desc as [ty fmt w h d nl ns us nm st dn].
  unfold create, createImage, createImageView, getDimensions, getType,
    getNumLayers, getSamples. simpl_desc.
  destruct (supportedType ty) eqn:Hty; cbn [negb andb]; [|early_return].
  destruct (nm =? 0) eqn:Hnm; simpl_desc.
  all: destruct ((1 <? ns) && negb (_ =? 1)) eqn:H2; [early_return|].
  all: destruct ((1 <? ns) && match ty with ThreeD => true | _ => false end) eqn:H3;
    [early_return|].
  all: destruct (negb (_ <=? calcNumMipLevels w h)) eqn:H4; [early_return|].
  all: destruct (us =? 0) eqn:Hus; simpl_desc.
  all: destruct ty; try discriminate Hty.
  all: match goal with
       | |- context [createImageOutcome ?a ?b] =>
         destruct (createImageOutcome a b) as [r1 [|]] eqn:Hci
       end.
  all: destruct (Result.isOk r1) eqn:Hr1; cbn [negb].
  all: try match goal with
       | |- context [createImageViewOutcome ?a ?b] =>
         destruct (createImageViewOutcome a b) eqn:Hcv
       end.
  all: simpl_desc; cbn [stagedTransfers createdImages createdViews].
  all: early_return.
Qed.
Lemma hasFlag_bit (flags k : N) : hasFlag flags (2 ^ k) = N.testbit flags k.
Proof. unfold hasFlag. rewrite land_single_bit. apply negb_involutive. Qed.

Lemma imageUsageFlags_small (d : TextureDesc.t) : imageUsageFlags d < 64.
Proof.
  assert (Hmod : imageUsageFlags d mod 2 ^ 6 = imageUsageFlags d).
  { apply N.bits_inj. intros k. destruct (N.ltb_spec k 6) as [Hk | Hk].
    - now rewrite N.mod_pow2_bits_low.
    - rewrite N.mod_pow2_bits_high by exact Hk.
      rewrite imageUsageFlags_bits.
      rewrite (proj2 (N.eqb_neq k 0)), (proj2 (N.eqb_neq k 1)),
        (proj2 (N.eqb_neq k 2)), (proj2 (N.eqb_neq k 3)),
        (proj2 (N.eqb_neq k 4)), (proj2 (N.eqb_neq k 5)) by lia.
      reflexivity. }
  rewrite <- Hmod. change 64 with (2 ^ 6). apply N.mod_lt. discriminate.
Qed.

(** X1.  A descriptor that fails one of the checks of [create] is rejected
    before anything is allocated: the device is left as it was, the texture
    keeps the image and the cached views it had, and the code is
    [Unimplemented] for an unsupported type and [ArgumentOutOfRange]
    otherwise.  Conversely every accepted descriptor passes the checks. *)
Theorem create_rejection_allocates_nothing (dev : DeviceState) (self : Texture)
    (desc : TextureDesc.t) :
  (passesChecks desc = false ->
   exists r self',
     create dev self desc = (r, self', dev)
     /\ Result.isOk r = false
     /\ Result.code r
        = (if supportedType (TextureDesc.type desc)
           then Result.ArgumentOutOfRange else Result.Unimplemented)
     /\ texture_ self' = texture_ self
     /\ imageViewForFramebuffer_ self' = imageViewForFramebuffer_ self)
  /\ (Result.isOk (fst (fst (create dev self desc))) = true ->
      passesChecks desc = true).
Proof.
  split.
  - intros Hp. destruct (create_rejected dev self desc Hp) as (r & Hc & Hok & Hcode).
    eexists _, _. split; [exact Hc|]. repeat split; assumption.
  - intros Hok. destruct (passesChecks desc) eqn:Hp; [reflexivity|].
    destruct (create_rejected dev self desc Hp) as (r & Hc & Hnok & _).
    rewrite Hc in Hok. cbn in Hok. congruence.
Qed.

(** X2.  Whatever the outcome, [create] overwrites the descriptor the
    getters read ([getDimensions], [getType], [getNumLayers], [getSamples]
    report the new request) and never touches the cached framebuffer views;
    when it fails the texture keeps the image it had, so after a failed
    second [create] the getters describe a texture other than the one still
    held. *)
Theorem create_overwrites_descriptor (dev : DeviceState) (self : Texture)
    (desc : TextureDesc.t) :
  let self' := snd (fst (create dev self desc)) in
  getDimensions self'
  = (TextureDesc.width desc, TextureDesc.height desc, TextureDesc.depth desc)
  /\ getType self' = TextureDesc.type desc
  /\ getNumLayers self' = TextureDesc.numLayers desc
  /\ getSamples self' = TextureDesc.numSamples desc
  /\ imageViewForFramebuffer_ self' = imageViewForFramebuffer_ self
  /\ (Result.isOk (fst (fst (create dev self desc))) = false ->
      texture_ self' = texture_ self /\ getVkImage self' = getVkImage self).
Proof.
  pose proof (create_any dev self desc) as Hany.
  destruct (create dev self desc) as [[r self'] dev']. cbn [fst snd].
  destruct Hany as (Hcache & _ & Hdim & Hty & Hnl & Hns & Hfail & _).
  repeat split; try assumption.
  - now apply Hfail.
  - unfold getVkImage. now rewrite (Hfail H).
Qed.

(** X3.  [create] records no staging transfer and creates at most one image
    and at most one view, the view only after the image; an accepted
    descriptor creates exactly one of each. *)
Theorem create_device_effect (dev : DeviceState) (self : Texture)
    (desc : TextureDesc.t) :
  let r := fst (fst (create dev self desc)) in
  let dev' := snd (create dev self desc) in
  stagedTransfers dev' = stagedTransfers dev
  /\ exists images views,
       createdImages dev' = createdImages dev ++ images
       /\ createdViews dev' = createdViews dev ++ views
       /\ (length views <= length images <= 1)%nat
       /\ (Result.isOk r = true -> length images = 1%nat /\ length views = 1%nat).
Proof.
  pose proof (create_any dev self desc) as Hany.
  destruct (create dev self desc) as [[r self'] dev']. cbn [fst snd].
  destruct Hany as (_ & Hst & _ & _ & _ & _ & _ & images & views & Hi & Hv & Hle & Hok).
  split; [exact Hst|]. exists images, views. repeat split; try assumption; try lia.
  - specialize (Hok H). lia.
  - now apply Hok.
Qed.

(** X4.  The image of an accepted descriptor is what the normalized
    descriptor asks for: volumetric exactly for ThreeD, the descriptor's
    extent, the normalized mip-level count, six times the layer count and
    the cube-compatible flag exactly for Cube; the primary view is on that
    image, in its format, and covers every mip level and every layer. *)
Theorem create_image_matches_descriptor (dev : DeviceState) (self : Texture)
    (desc : TextureDesc.t) (r : Result.t) (self' : Texture) (dev' : DeviceState) :
  create dev self desc = (r, self', dev') ->
  Result.isOk r = true ->
  exists t,
    texture_ self' = Some t
    /\ desc_ self' = normalizedDesc desc
    /\ type_ (image_ t)
       = match TextureDesc.type desc with
         | ThreeD => VK_IMAGE_TYPE_3D
         | _ => VK_IMAGE_TYPE_2D
         end
    /\ extent_ (image_ t)
       = {| extent_width := u32 (TextureDesc.width desc);
            extent_height := u32 (TextureDesc.height desc);
            extent_depth := u32 (TextureDesc.depth desc) |}
    /\ numLevels_ (image_ t) = u32 (getNumMipLevels self')
    /\ numLayers_ (image_ t)
       = match TextureDesc.type desc with
         | Cube => u32 (u32 (getNumLayers self') * 6)
         | _ => u32 (getNumLayers self')
         end
    /\ createFlags_ (image_ t)
       = match TextureDesc.type desc with
         | Cube => VK_IMAGE_CREATE_CUBE_COMPATIBLE_BIT
         | _ => 0
         end
    /\ getVkFormat self' = imageFormat_ (image_ t)
    /\ viewImage_ (imageView_ t) = vkImage_ (image_ t)
    /\ viewFormat_ (imageView_ t) = imageFormat_ (image_ t)
    /\ viewType_ (imageView_ t)
       = match TextureDesc.type desc with
         | ThreeD => VK_IMAGE_VIEW_TYPE_3D
         | Cube => VK_IMAGE_VIEW_TYPE_CUBE
         | _ => VK_IMAGE_VIEW_TYPE_2D
         end
    /\ baseLevel_ (imageView_ t) = 0
    /\ viewNumLevels_ (imageView_ t) = VK_REMAINING_MIP_LEVELS
    /\ baseLayer_ (imageView_ t) = 0
    /\ viewNumLayers_ (imageView_ t) = numLayers_ (image_ t).
Proof.
  intros Hc Hok.
  destruct (create_ok_objects dev self desc r self' dev' Hc Hok)
    as (image & view & -> & _ & -> & ->).
  eexists. split; [reflexivity|]. cbn. repeat split.
Qed.

(** X5.  The usage flags of the image of an accepted descriptor: the
    transfer-source bit always, the transfer-destination bit exactly for
    private storage, the sampled and storage bits exactly when the
    normalized usage has them, and for Attachment usage the depth-stencil
    attachment bit when the format is a depth or stencil format and the
    colour attachment bit otherwise; no other bit is set.  An empty usage
    set therefore yields a sampled image. *)
Theorem create_usage_flags (dev : DeviceState) (self : Texture)
    (desc : TextureDesc.t) (r : Result.t) (self' : Texture) (dev' : DeviceState) :
  create dev self desc = (r, self', dev') ->
  Result.isOk r = true ->
  exists t,
    texture_ self' = Some t
    /\ hasFlag (usageFlags_ (image_ t)) VK_IMAGE_USAGE_TRANSFER_SRC_BIT = true
    /\ hasFlag (usageFlags_ (image_ t)) VK_IMAGE_USAGE_TRANSFER_DST_BIT
       = isPrivate (TextureDesc.storage desc)
    /\ hasFlag (usageFlags_ (image_ t)) VK_IMAGE_USAGE_SAMPLED_BIT
       = hasFlag (getUsage self') TextureDesc.TextureUsageBits.Sampled
    /\ hasFlag (usageFlags_ (image_ t)) VK_IMAGE_USAGE_STORAGE_BIT
       = hasFlag (getUsage self') TextureDesc.TextureUsageBits.Storage
    /\ hasFlag (usageFlags_ (image_ t)) VK_IMAGE_USAGE_COLOR_ATTACHMENT_BIT
       = hasFlag (getUsage self') TextureDesc.TextureUsageBits.Attachment
         && negb (isDepthOrStencilFormat (TextureDesc.format desc))
    /\ hasFlag (usageFlags_ (image_ t)) VK_IMAGE_USAGE_DEPTH_STENCIL_ATTACHMENT_BIT
       = hasFlag (getUsage self') TextureDesc.TextureUsageBits.Attachment
         && isDepthOrStencilFormat (TextureDesc.format desc)
    /\ usageFlags_ (image_ t) < 64
    /\ (TextureDesc.usage desc = 0 ->
        getUsage self' = TextureDesc.TextureUsageBits.Sampled
        /\ hasFlag (usageFlags_ (image_ t)) VK_IMAGE_USAGE_SAMPLED_BIT = true).
Proof.
  intros Hc Hok.
  destruct (create_ok_objects dev self desc r self' dev' Hc Hok)
    as (image & view & -> & _ & -> & _).
  eexists. split; [reflexivity|].
  cbn [image_ usageFlags_ getUsage desc_].
  change VK_IMAGE_USAGE_TRANSFER_SRC_BIT with (2 ^ 0).
  change VK_IMAGE_USAGE_TRANSFER_DST_BIT with (2 ^ 1).
  change VK_IMAGE_USAGE_SAMPLED_BIT with (2 ^ 2).
  change VK_IMAGE_USAGE_STORAGE_BIT with (2 ^ 3).
  change VK_IMAGE_USAGE_COLOR_ATTACHMENT_BIT with (2 ^ 4).
  change VK_IMAGE_USAGE_DEPTH_STENCIL_ATTACHMENT_BIT with (2 ^ 5).
  rewrite !hasFlag_bit, !imageUsageFlags_bits. cbn [N.eqb Pos.eqb].
  unfold hasFlag.
  repeat split; try reflexivity.
  - apply imageUsageFlags_small.
  - unfold normalizedDesc, normalizedUsage. rewrite H. reflexivity.
  - unfold normalizedDesc, normalizedUsage. rewrite H. reflexivity.
Qed.

(** X6.  The primary view of an accepted descriptor has the depth aspect
    exactly when the normalized usage has Attachment and the format is a
    depth or stencil format; in every other case, a sampled-only depth
    texture included, it has the colour aspect. *)
Theorem create_primary_view_aspect (dev : DeviceState) (self : Texture)
    (desc : TextureDesc.t) (r : Result.t) (self' : Texture) (dev' : DeviceState) :
  create dev self desc = (r, self', dev') ->
  Result.isOk r = true ->
  exists t,
    texture_ self' = Some t
    /\ aspectMask_ (imageView_ t)
       = if hasFlag (getUsage self') TextureDesc.TextureUsageBits.Attachment
            && isDepthOrStencilFormat (TextureDesc.format desc)
         then VK_IMAGE_ASPECT_DEPTH_BIT
         else VK_IMAGE_ASPECT_COLOR_BIT.
Proof.
  intros Hc Hok.
  destruct (create_ok_objects dev self desc r self' dev' Hc Hok)
    as (image & view & -> & _ & -> & ->).
  eexists. split; [reflexivity|]. clear Hc.
  unfold getUsage. cbn [image_ imageView_ aspectMask_ usageFlags_ desc_].
  pose proof (hasFlag_bit (imageUsageFlags (normalizedDesc desc)) 5) as Hbit.
  unfold hasFlag in Hbit at 1. change (2 ^ 5) with VK_IMAGE_USAGE_DEPTH_STENCIL_ATTACHMENT_BIT in Hbit.
  rewrite imageUsageFlags_bits in Hbit. cbn [N.eqb Pos.eqb] in Hbit.
  change (TextureDesc.format (normalizedDesc desc))
    with (TextureDesc.format desc) in Hbit.
  change (TextureDesc.usage (normalizedDesc desc))
    with (normalizedUsage desc) in *.
  unfold hasFlag.
  destruct (N.land (imageUsageFlags (normalizedDesc desc))
              VK_IMAGE_USAGE_DEPTH_STENCIL_ATTACHMENT_BIT =? 0);
    cbn [negb] in Hbit; rewrite <- Hbit; reflexivity.
Qed.

(** X7.  How a refusal of the device reaches the caller of [create], for a
    descriptor that passes the checks: a failing result of [createImage] is
    returned as it is; a success result with a null image becomes
    [InvalidOperation]; a null view becomes [InvalidOperation] after the
    image was created.  In all three cases the texture keeps the image it
    had. *)
Theorem create_device_failures (dev : DeviceState) (self : Texture)
    (desc : TextureDesc.t) :
  passesChecks desc = true ->
  (forall rerr b,
     Result.isOk rerr = false ->
     (forall img, createImageOutcome dev img = (rerr, b)) ->
     exists self' dev',
       create dev self desc = (rerr, self', dev')
       /\ texture_ self' = texture_ self
       /\ createdViews dev' = createdViews dev)
  /\ (forall rok,
        Result.isOk rok = true ->
        (forall img, createImageOutcome dev img = (rok, false)) ->
        exists self',
          create dev self desc
          = (Result.mk Result.InvalidOperation "Cannot create VulkanImage",
             self', dev)
          /\ texture_ self' = texture_ self)
  /\ (forall rok,
        Result.isOk rok = true ->
        (forall img, createImageOutcome dev img = (rok, true)) ->
        (forall d view, createImageViewOutcome d view = false) ->
        exists self' dev' image,
          create dev self desc
          = (Result.mk Result.InvalidOperation "Cannot create VulkanImageView",
             self', dev')
          /\ texture_ self' = texture_ self
          /\ createdImages dev' = createdImages dev ++ [image]
          /\ createdViews dev' = createdViews dev).
Proof.
  intros Hp. apply passesChecks_inv in Hp as (H1 & H2 & H3 & H4).
  destruct desc as [ty fmt w h d nl ns us nm st dn].
  unfold normalizedMipLevels in *. simpl_desc.
  unfold create, createImage, createImageView. simpl_desc.
  rewrite H1. cbn [negb].
  destruct (nm =? 0) eqn:Hnm; simpl_desc; rewrite H2, H3, H4; cbn [negb].
  all: destruct (us =? 0); simpl_desc.
  all: destruct ty; try discriminate H1.
  all: split; [|split].
  all: try (intros rerr b Herr Himg; rewrite Himg; destruct b;
            cbv beta iota zeta; rewrite Herr; cbn [negb];
            eexists _, _; repeat split; fail).
  all: try (intros rok Hok Himg; rewrite Himg; cbv beta iota zeta;
            rewrite Hok; cbn [negb]; eexists; repeat split; fail).
  all: intros rok Hok Himg Hview; rewrite Himg; cbv beta iota zeta;
    rewrite Hok; cbn [negb]; rewrite Hview; eexists _, _, _; repeat split.
Qed.

(** ** More on uploads *)

Lemma uploadLayers_effect mem self range aligned irw bpr inc layers :
  forall i data lin dev dev',
    uploadLayers mem self range aligned irw bpr inc layers i data lin dev
    = Some dev' ->
    createdImages dev' = createdImages dev
    /\ createdViews dev' = createdViews dev
    /\ exists new,
         stagedTransfers dev' = stagedTransfers dev ++ new
         /\ length new = layers.
Proof.
  induction layers as [|layers IH]; intros i data lin dev dev'; cbn [uploadLayers].
  - intros Heq; inversion Heq; subst. repeat split. exists [].
    now rewrite app_nil_r.
  - destruct (if aligned then _ else _) as [[u lin']|]; [|discriminate].
    destruct (texture_ self) as [t|]; [|discriminate].
    intros Hrun. destruct (IH _ _ _ _ _ Hrun) as (Hi & Hv & new & Hnew & Hlen).
    cbn [stage createdImages createdViews stagedTransfers] in Hi, Hv, Hnew.
    repeat split; try assumption.
    eexists (_ :: new). split.
    + rewrite Hnew, <- app_assoc. reflexivity.
    + cbn. now rewrite Hlen.
Qed.

(** X8.  Whenever [upload] returns, it has created no image and no view, and
    has only appended to the recorded transfers: nothing for a null pointer
    or a rejected range, and otherwise one transfer per layer, a layer count
    of 0 counting as 1. *)
Theorem upload_device_effect (mem : Memory) (dev : DeviceState) (self : Texture)
    (range : TextureRangeDesc.t) (data bytesPerRow : N)
    (r : Result.t) (dev' : DeviceState) :
  upload mem dev self range data bytesPerRow = Some (r, dev') ->
  createdImages dev' = createdImages dev
  /\ createdViews dev' = createdViews dev
  /\ exists new,
       stagedTransfers dev' = stagedTransfers dev ++ new
       /\ length new
          = (if (data =? 0) || negb (rangeInBounds self range) then 0%nat
             else N.to_nat (N.max (TextureRangeDesc.numLayers range) 1))
       /\ r = (if (data =? 0) || rangeInBounds self range then ResultOk
               else validateRange self range).
Proof.
  unfold upload, validateRange.
  destruct (data =? 0); cbn [orb].
  { intros Heq; inversion Heq; subst. repeat split. exists [].
    now rewrite app_nil_r. }
  destruct (rangeInBounds self range); cbn [Result.isOk Result.code ResultOk negb].
  2: { intros Heq; inversion Heq; subst. repeat split. exists [].
       now rewrite app_nil_r. }
  destruct (INT_MAX <? _); [discriminate|].
  destruct (INT_MAX <? _); [discriminate|].
  destruct (uploadLayers _ _ _ _ _ _ _ _ _ _ _ _) as [dev1|] eqn:Hrun; [|discriminate].
  intros Heq; inversion Heq; subst.
  destruct (uploadLayers_effect _ _ _ _ _ _ _ _ _ _ _ _ _ Hrun)
    as (Hi & Hv & new & Hnew & Hlen).
  repeat split; try assumption. exists new. repeat split; assumption.
Qed.

Lemma rangeInBounds_fewer_layers self range layer n m :
  n <= m ->
  rangeInBounds self (rangeWithLayers layer m range) = true ->
  rangeInBounds self (rangeWithLayers layer n range) = true.
Proof.
  intros Hnm. unfold rangeInBounds, rangeWithLayers.
  destruct (getDimensions self) as [[w h] d].
  cbn [TextureRangeDesc.x TextureRangeDesc.y TextureRangeDesc.z
       TextureRangeDesc.width TextureRangeDesc.height TextureRangeDesc.depth
       TextureRangeDesc.layer TextureRangeDesc.numLayers
       TextureRangeDesc.mipLevel].
  rewrite !andb_true_iff, !N.leb_le. intros [Hxyz Hl]. split; [exact Hxyz|lia].
Qed.

Lemma addMipSlices_layers desc range layer n levels :
  forall i acc,
    addMipSlices desc (rangeWithLayers layer n range) levels i acc
    = addMipSlices desc range levels i acc.
Proof.
  induction levels as [|levels IH]; intros i acc; cbn [addMipSlices].
  - reflexivity.
  - now rewrite IH.
Qed.

Lemma uploadLayers_range_ext mem self r1 r2 aligned irw bpr inc layers :
  (forall t i u, layerTransfer self t r1 i u = layerTransfer self t r2 i u) ->
  forall i data lin dev,
    uploadLayers mem self r1 aligned irw bpr inc layers i data lin dev
    = uploadLayers mem self r2 aligned irw bpr inc layers i data lin dev.
Proof.
  intros Hsame. induction layers as [|layers IH]; intros i data lin dev;
    cbn [uploadLayers]; [reflexivity|].
  destruct (if aligned then _ else _) as [[u lin']|]; [|reflexivity].
  destruct (texture_ self) as [t|]; [|reflexivity].
  now rewrite Hsame, IH.
Qed.

(** X9.  A layer count of 0 is treated as 1: when the one-layer range is in
    bounds, [upload] of the range with layer count 0 does exactly what it
    does for layer count 1. *)
Theorem upload_zero_layers_is_one_layer (mem : Memory) (dev : DeviceState)
    (self : Texture) (range : TextureRangeDesc.t) (data bytesPerRow : N) :
  rangeInBounds self
    (rangeWithLayers (TextureRangeDesc.layer range) 1 range) = true ->
  upload mem dev self (rangeWithLayers (TextureRangeDesc.layer range) 0 range)
    data bytesPerRow
  = upload mem dev self (rangeWithLayers (TextureRangeDesc.layer range) 1 range)
      data bytesPerRow.
Proof.
  intros H1.
  pose proof (rangeInBounds_fewer_layers self range _ 0 1 ltac:(lia) H1) as H0.
  unfold upload. destruct (data =? 0); [reflexivity|].
  rewrite (validateRange_ok _ _ H0), (validateRange_ok _ _ H1).
  cbn [Result.isOk Result.code ResultOk negb].
  change (TextureRangeDesc.numMipLevels (rangeWithLayers _ 0 range))
    with (TextureRangeDesc.numMipLevels range).
  change (TextureRangeDesc.numMipLevels (rangeWithLayers _ 1 range))
    with (TextureRangeDesc.numMipLevels range).
  change (numLayers (rangeWithLayers (TextureRangeDesc.layer range) 0 range)) with 1.
  change (numLayers (rangeWithLayers (TextureRangeDesc.layer range) 1 range)) with 1.
  assert (Hinc : byteIncrement self
                   (rangeWithLayers (TextureRangeDesc.layer range) 0 range)
                 = byteIncrement self
                     (rangeWithLayers (TextureRangeDesc.layer range) 1 range)).
  { unfold byteIncrement.
    change (numLayers (rangeWithLayers (TextureRangeDesc.layer range) 0 range)) with 1.
    change (numLayers (rangeWithLayers (TextureRangeDesc.layer range) 1 range)) with 1.
    rewrite !addMipSlices_layers. reflexivity. }
  rewrite Hinc.
  rewrite (uploadLayers_range_ext mem self
             (rangeWithLayers (TextureRangeDesc.layer range) 0 range)
             (rangeWithLayers (TextureRangeDesc.layer range) 1 range)).
  - reflexivity.
  - intros t i u. reflexivity.
Qed.

Lemma uploadLayers_aligned_ext mem self range irw b1 b2 inc layers :
  forall i data lin1 lin2 dev,
    uploadLayers mem self range true irw b1 inc layers i data lin1 dev
    = uploadLayers mem self range true irw b2 inc layers i data lin2 dev.
Proof.
  induction layers as [|layers IH]; intros i data lin1 lin2 dev;
    cbn [uploadLayers]; [reflexivity|].
  destruct (texture_ self) as [t|]; [|reflexivity]. apply IH.
Qed.

(** X10.  On the aligned path the row stride plays no part: two strides
    that both take the aligned path give the same [upload].  So a stride of
    0 is the same as the packed row width, and for a compressed format every
    stride is the same. *)
Theorem upload_aligned_ignores_stride (mem : Memory) (dev : DeviceState)
    (self : Texture) (range : TextureRangeDesc.t) (data : N) :
  (forall b1 b2,
     isAligned self b1 = true -> isAligned self b2 = true ->
     upload mem dev self range data b1 = upload mem dev self range data b2)
  /\ upload mem dev self range data 0
     = upload mem dev self range data (imageRowWidth self)
  /\ (isCompressedTextureFormat (vkFormatToTextureFormat (getVkFormat self)) = true ->
      forall b1 b2,
        upload mem dev self range data b1 = upload mem dev self range data b2).
Proof.
  assert (Hgen : forall b1 b2,
     isAligned self b1 = true -> isAligned self b2 = true ->
     upload mem dev self range data b1 = upload mem dev self range data b2).
  { intros b1 b2 H1 H2. unfold upload. rewrite H1, H2.
    now rewrite (uploadLayers_aligned_ext mem self range (imageRowWidth self)
                   b1 b2 (byteIncrement self range)
                   (N.to_nat (numLayers range)) 0 data [] [] dev). }
  split; [exact Hgen|]. split.
  - apply Hgen; unfold isAligned.
    + rewrite N.eqb_refl. now rewrite orb_true_r.
    + rewrite N.eqb_refl. now rewrite orb_true_r.
  - intros Hc b1 b2. apply Hgen; unfold isAligned; now rewrite Hc.
Qed.

Lemma uploadLayers_no_image mem self range aligned irw bpr inc layers i data lin dev :
  texture_ self = None ->
  uploadLayers mem self range aligned irw bpr inc (S layers) i data lin dev = None.
Proof.
  intros Ht. cbn [uploadLayers].
  destruct (if aligned then _ else _) as [[u lin']|]; [|reflexivity].
  now rewrite Ht.
Qed.

(** X11.  A texture that holds no image (never created, or only rejected by
    [create]) must not be used: its behaviour is undefined for [upload] with
    a non-null pointer and a valid range, for [uploadCube] with a valid
    range, for [getVkImageViewForFramebuffer] at a level with no cached view
    and for [generateMipmap] when the descriptor has more than one mip
    level.  The handle getters are safe and report the null handle. *)
Theorem texture_without_image (mem : Memory) (dev : DeviceState)
    (self : Texture) :
  texture_ self = None ->
  (forall range data bytesPerRow,
     data <> 0 -> rangeInBounds self range = true ->
     upload mem dev self range data bytesPerRow = None)
  /\ (forall range face data bytesPerRow,
        rangeInBounds self range = true ->
        uploadCube dev self range face data bytesPerRow = None)
  /\ (forall level,
        cachedView self level = None ->
        getVkImageViewForFramebuffer dev self level = None)
  /\ (forall imageLayout submitted,
        1 < getNumMipLevels self ->
        generateMipmap imageLayout submitted self = None)
  /\ getVkImage self = VK_NULL_HANDLE
  /\ getVkImageView self = VK_NULL_HANDLE
  /\ getVkFormat self = VK_FORMAT_UNDEFINED.
Proof.
  intros Ht. repeat split.
  - intros range data b Hd Hr. unfold upload.
    destruct (data =? 0) eqn:Hd0; [apply N.eqb_eq in Hd0; contradiction|].
    rewrite (validateRange_ok _ _ Hr). cbn [Result.isOk Result.code ResultOk negb].
    destruct (INT_MAX <? _); [reflexivity|].
    destruct (INT_MAX <? _); [reflexivity|].
    assert (Hn : exists k, N.to_nat (numLayers range) = S k).
    { exists (N.to_nat (numLayers range) - 1)%nat. unfold numLayers. lia. }
    destruct Hn as [k ->].
    now rewrite uploadLayers_no_image.
  - intros range face data b Hr. unfold uploadCube.
    rewrite (validateRange_ok _ _ Hr). cbn [Result.isOk Result.code ResultOk negb].
    now rewrite Ht.
  - intros level Hmiss. unfold getVkImageViewForFramebuffer, cachedView in *.
    destruct (imageViewForFramebuffer_ self !! N.to_nat level) as [[v|]|];
      [discriminate| |]; now rewrite Ht.
  - intros imageLayout submitted Hm. unfold generateMipmap, getNumMipLevels in *.
    apply N.ltb_lt in Hm. now rewrite Hm, Ht.
  - unfold getVkImage. now rewrite Ht.
  - unfold getVkImageView. now rewrite Ht.
  - unfold getVkFormat. now rewrite Ht.
Qed.

(** X12.  For a non-volumetric image and a stride that takes the aligned
    path, [uploadCube] for a face is [upload] of the same rectangle and mip
    span to the single layer whose index is the ordinal of the face; the
    layer and layer count of the range given to [uploadCube] play no part in
    where the data goes.  [uploadCube] never looks at the stride. *)
Theorem uploadCube_is_upload_to_face_layer (mem : Memory) (dev : DeviceState)
    (self : Texture) (t : VulkanTexture) (range : TextureRangeDesc.t)
    (face : TextureCubeFace) (data bytesPerRow : N) :
  texture_ self = Some t ->
  type_ (image_ t) = VK_IMAGE_TYPE_2D ->
  data <> 0 ->
  isAligned self bytesPerRow = true ->
  TextureRangeDesc.numMipLevels range <= INT_MAX ->
  rangeInBounds self range = true ->
  rangeInBounds self (rangeWithLayers (face_ordinal face) 1 range) = true ->
  upload mem dev self (rangeWithLayers (face_ordinal face) 1 range) data bytesPerRow
  = uploadCube dev self range face data bytesPerRow
  /\ forall otherStride,
       uploadCube dev self range face data otherStride
       = uploadCube dev self range face data bytesPerRow.
Proof.
  intros Ht H2d Hd Hal Hm Hr Hr1. split; [|reflexivity].
  rewrite (upload_valid mem dev self t _ data bytesPerRow Hd Hr1 Ht).
  - rewrite (uploadCube_valid dev self t range face data bytesPerRow Ht Hr).
    change (N.to_nat (numLayers (rangeWithLayers (face_ordinal face) 1 range)))
      with 1%nat.
    cbn [indices seq map stageAll fold_left N.of_nat].
    change (N.to_nat (N.of_nat 0)) with O. cbn [sourcePointer].
    unfold layerSource, layerTransfer. rewrite Hal, H2d.
    rewrite !N.add_0_r.
    cbn [rangeWithLayers TextureRangeDesc.x TextureRangeDesc.y
         TextureRangeDesc.width TextureRangeDesc.height
         TextureRangeDesc.mipLevel TextureRangeDesc.numMipLevels
         TextureRangeDesc.layer].
    rewrite (u32_small (face_ordinal face)), (u32_small (face_ordinal face)).
    + reflexivity.
    + pose proof (face_ordinal_bound face). change (2 ^ 32) with 4294967296. lia.
    + pose proof (face_ordinal_bound face). change (2 ^ 32) with 4294967296. lia.
  - cbn. unfold INT_MAX. cbn. lia.
  - exact Hm.
  - now left.
Qed.

(** X13.  The unaligned path.  When the stride is neither 0 nor the packed
    row width of the texture (and the format is not compressed), a valid
    [upload] whose source pointers stay within the address space hands the
    staging device, for every layer, a fresh buffer of exactly
    [imageRowWidth * height] bytes of the whole texture, whatever the
    range: byte [k] of row [h] is the source byte at
    [h * bytesPerRow + k] past the layer's source pointer, which lies
    [i * byteIncrement] past the caller's pointer, [byteIncrement] being
    the value the code accumulates in its fixed-width type. *)
Theorem upload_unaligned_repacks_rows (mem : Memory) (dev : DeviceState)
    (self : Texture) (t : VulkanTexture) (range : TextureRangeDesc.t)
    (data bytesPerRow : N) :
  data <> 0 ->
  rangeInBounds self range = true ->
  texture_ self = Some t ->
  TextureRangeDesc.numLayers range <= INT_MAX ->
  TextureRangeDesc.numMipLevels range <= INT_MAX ->
  isAligned self bytesPerRow = false ->
  linearFits self = true ->
  data + numLayers range * byteIncrement self range < 2 ^ 64 ->
  exists dev' new bufs,
    upload mem dev self range data bytesPerRow = Some (ResultOk, dev')
    /\ stagedTransfers dev' = stagedTransfers dev ++ new
    /\ map transferData new = map LinearData bufs
    /\ length bufs = N.to_nat (numLayers range)
    /\ forall i buf,
         bufs !! N.to_nat i = Some buf ->
         length buf
         = N.to_nat (imageRowWidth self * TextureDesc.height (desc_ self))
         /\ forall h k,
              h < TextureDesc.height (desc_ self) -> k < imageRowWidth self ->
              buf !! N.to_nat (h * imageRowWidth self + k)
              = Some (mem (data + i * byteIncrement self range
                           + usize (h * bytesPerRow) + k)).
Proof.
  intros Hd Hr Ht Hl Hm Hal Hfit Haddr.
  eexists _, _,
    (map (fun i => packedRows mem (data + i * byteIncrement self range)
                     bytesPerRow (imageRowWidth self)
                     (N.to_nat (TextureDesc.height (desc_ self))) 0)
         (indices (N.to_nat (numLayers range)))).
  split; [|split; [|split; [|split]]].
  - apply (upload_valid mem dev self t range data bytesPerRow Hd Hr Ht Hl Hm).
    now right.
  - apply stagedTransfers_stageAll.
  - rewrite !map_map. apply map_ext_in. intros i Hi.
    apply indices_lt in Hi. rewrite sourcePointer_small, N2Nat.id.
    + unfold layerSource, layerTransfer. rewrite Hal.
      destruct (type_ (image_ t)); reflexivity.
    + rewrite N2Nat.id. rewrite N2Nat.id in Hi.
      generalize dependent (byteIncrement self range). intros inc Haddr. nia.
  - unfold indices. now rewrite !length_map, length_seq.
  - intros i buf Hbuf. unfold indices in Hbuf.
    rewrite map_map in Hbuf.
    change (map ?f ?l) with (f <$> l) in Hbuf.
    rewrite list_lookup_fmap in Hbuf.
    destruct (seq 0 (N.to_nat (numLayers range)) !! N.to_nat i) as [j|] eqn:Hj;
      [|discriminate].
    apply lookup_seq in Hj as [-> _]. cbn in Hbuf. inversion Hbuf; subst buf.
    rewrite N2Nat.id. split.
    + rewrite length_packedRows. lia.
    + intros h k Hh Hk. rewrite packedRows_lookup by lia.
      now rewrite N.add_0_l.
Qed.

(** ** Mipmap generation *)



(** ** More on the framebuffer view cache *)

Lemma getView_call dev self level h self1 dev1 :
  getVkImageViewForFramebuffer dev self level = Some (h, self1, dev1) ->
  (exists v, cachedView self level = Some v /\ h = vkImageView_ v
             /\ self1 = self /\ dev1 = dev)
  \/ (exists t v,
        cachedView self level = None
        /\ texture_ self = Some t
        /\ createImageView dev (image_ t) VK_IMAGE_VIEW_TYPE_2D
             (textureFormatToVkFormat (TextureDesc.format (desc_ self)))
             (getImageAspectFlags (image_ t)) level 1 0 1 "" = (Some v, dev1)
        /\ h = vkImageView_ v
        /\ cachedView self1 level = Some v
        /\ length (imageViewForFramebuffer_ self1)
           = Nat.max (length (imageViewForFramebuffer_ self))
                     (N.to_nat level + 1)%nat).
Proof.
  unfold getVkImageViewForFramebuffer, cachedView.
  destruct (imageViewForFramebuffer_ self !! N.to_nat level) as [[v0|]|] eqn:Hl.
  { intros Heq; inversion Heq; subst. left. exists v0. auto. }
  all: destruct (texture_ self) as [t|] eqn:Ht; [|discriminate].
  all: destruct (createImageView _ _ _ _ _ _ _ _ _ _) as [[v|] dev2] eqn:Hview.
  all: destruct (N.of_nat (length _) <=? level) eqn:Hlen at 1; try discriminate.
  all: intros Heq; inversion Heq; subst; clear Heq.
  all: right; exists t, v.
  all: cbn [imageViewForFramebuffer_ set_imageViewForFramebuffer_].
  all: apply N.leb_gt in Hlen.
  all: rewrite length_insert, list_lookup_insert_eq by lia.
  all: destruct (N.of_nat (length (imageViewForFramebuffer_ self)) <=? level) eqn:Hgrow.
  all: try rewrite length_resize in *.
  all: try apply N.leb_le in Hgrow; try apply N.leb_gt in Hgrow.
  all: repeat split; try reflexivity; try assumption.
  all: try (apply lookup_lt_Some in Hl; lia).
  all: assert (Hu : u32 (level + 1) <= level + 1)
         by (unfold u32; apply N.Div0.mod_le).
  all: lia.
Qed.

Lemma createImageView_fields dev img ty fmt am bl nl bly nly dn v dev' :
  createImageView dev img ty fmt am bl nl bly nly dn = (Some v, dev') ->
  dev' = {| createdImages := createdImages dev;
            createdViews := createdViews dev ++ [v];
            stagedTransfers := stagedTransfers dev |}
  /\ createdViews dev' = createdViews dev ++ [v]
  /\ viewImage_ v = vkImage_ img
  /\ viewType_ v = ty
  /\ viewFormat_ v = fmt.
Proof.
  unfold createImageView. destruct (createImageViewOutcome _ _); intros Heq;
    inversion Heq; subst; cbn; repeat split; auto.
Qed.

(** X15.  What one returning call of [getVkImageViewForFramebuffer] does.
    The handle it returns is the handle of the view cached for the level
    after the call.  It creates no image and records no transfer.  On a hit
    it changes nothing.  On a miss it creates exactly one view, a 2D view on
    the image the texture holds, in the format of the descriptor.  The cache
    never shrinks: its length becomes the larger of its old length and
    [level + 1]. *)
Theorem getVkImageViewForFramebuffer_call (dev : DeviceState) (self : Texture)
    (level : N) (h : VkHandle) (self1 : Texture) (dev1 : DeviceState) :
  getVkImageViewForFramebuffer dev self level = Some (h, self1, dev1) ->
  (exists v, cachedView self1 level = Some v /\ h = vkImageView_ v)
  /\ createdImages dev1 = createdImages dev
  /\ stagedTransfers dev1 = stagedTransfers dev
  /\ length (imageViewForFramebuffer_ self1)
     = Nat.max (length (imageViewForFramebuffer_ self)) (N.to_nat level + 1)%nat
  /\ (cachedView self level <> None -> self1 = self /\ dev1 = dev)
  /\ (cachedView self level = None ->
      exists v,
        createdViews dev1 = createdViews dev ++ [v]
        /\ viewImage_ v = getVkImage self
        /\ viewType_ v = VK_IMAGE_VIEW_TYPE_2D
        /\ viewFormat_ v
           = textureFormatToVkFormat (TextureDesc.format (desc_ self))).
Proof.
  intros Hcall.
  destruct (getView_call _ _ _ _ _ _ Hcall)
    as [(v & Hhit & -> & -> & ->)
       | (t & v & Hmiss & Ht & Hview & -> & Hcached & Hlen)].
  - split; [exists v; auto|].
    split; [reflexivity|]. split; [reflexivity|].
    split; [|split].
    + unfold cachedView in Hhit.
      destruct (imageViewForFramebuffer_ self !! N.to_nat level) as [o|] eqn:Hl;
        [|discriminate].
      apply lookup_lt_Some in Hl. lia.
    + intros _. split; reflexivity.
    + rewrite Hhit. intros Hnone. discriminate.
  - split; [exists v; split; [exact Hcached | reflexivity]|].
    apply createImageView_fields in Hview as (-> & Hviews & Himg & Hty & Hfmt).
    cbn [createdImages stagedTransfers createdViews].
    split; [reflexivity|]. split; [reflexivity|].
    split; [exact Hlen|]. split.
    + intros Hsome. contradiction.
    + intros _. exists v. unfold getVkImage. rewrite Ht. auto.
Qed.

Lemma getViews_all_cached dev self levels :
  forall self2 dev2,
    getViews dev self levels = Some (self2, dev2) ->
    forall level, In level levels -> cachedView self2 level <> None.
Proof.
  revert dev self. induction levels as [|l levels IH];
    intros dev self self2 dev2; cbn [getViews]; [intros _ level []|].
  destruct (getVkImageViewForFramebuffer dev self l) as [[[h self1] dev1]|] eqn:Hcall;
    [|discriminate].
  intros Hrun level [<- | Hin].
  - destruct (getVkImageViewForFramebuffer_call _ _ _ _ _ _ Hcall)
      as ((v & Hv & _) & _).
    destruct (getViews_keeps _ _ _ _ _ Hrun) as [_ Hkeep].
    rewrite (Hkeep l v Hv). discriminate.
  - exact (IH _ _ _ _ Hrun level Hin).
Qed.

Lemma getViews_hits dev self levels :
  (forall level, In level levels -> cachedView self level <> None) ->
  getViews dev self levels = Some (self, dev).
Proof.
  induction levels as [|l levels IH]; intros Hall; cbn [getViews]; [reflexivity|].
  destruct (cachedView self l) as [v|] eqn:Hv.
  - rewrite (getView_hit dev self l v Hv). apply IH.
    intros level Hin. apply Hall. now right.
  - exfalso. apply (Hall l); [now left | exact Hv].
Qed.

Lemma getViews_effect dev self levels :
  forall self2 dev2,
    getViews dev self levels = Some (self2, dev2) ->
    createdImages dev2 = createdImages dev
    /\ stagedTransfers dev2 = stagedTransfers dev
    /\ (length (imageViewForFramebuffer_ self)
        <= length (imageViewForFramebuffer_ self2))%nat
    /\ exists views,
         createdViews dev2 = createdViews dev ++ views
         /\ (length views <= length levels)%nat.
Proof.
  revert dev self. induction levels as [|l levels IH];
    intros dev self self2 dev2; cbn [getViews].
  - intros Heq; inversion Heq; subst. repeat split; try lia.
    exists []. now rewrite app_nil_r.
  - destruct (getVkImageViewForFramebuffer dev self l) as [[[h self1] dev1]|] eqn:Hcall;
      [|discriminate].
    intros Hrun.
    destruct (IH _ _ _ _ Hrun) as (Hi & Hs & Hlen & views & Hviews & Hn).
    destruct (getVkImageViewForFramebuffer_call _ _ _ _ _ _ Hcall)
      as (_ & Hi1 & Hs1 & Hlen1 & Hhit & Hmiss).
    repeat split; try congruence; try lia.
    destruct (cachedView self l) as [v|] eqn:Hv.
    + destruct Hhit as [_ ->]; [discriminate|].
      exists views. split; [exact Hviews | cbn; lia].
    + destruct (Hmiss eq_refl) as (v & Hv1 & _).
      exists (v :: views). split.
      * rewrite Hviews, Hv1, <- app_assoc. reflexivity.
      * cbn. lia.
Qed.

(** X16.  A run of [getVkImageViewForFramebuffer] over a list of levels
    leaves a view cached for every level asked for, creates at most one view
    per level of the list, no image and no transfer; running over the same
    list again changes neither the texture nor the device. *)
Theorem getViews_second_pass (dev : DeviceState) (self : Texture)
    (levels : list N) (self2 : Texture) (dev2 : DeviceState) :
  getViews dev self levels = Some (self2, dev2) ->
  (forall level, In level levels -> cachedView self2 level <> None)
  /\ getViews dev2 self2 levels = Some (self2, dev2)
  /\ createdImages dev2 = createdImages dev
  /\ stagedTransfers dev2 = stagedTransfers dev
  /\ exists views,
       createdViews dev2 = createdViews dev ++ views
       /\ (length views <= length levels)%nat.
Proof.
  intros Hrun.
  pose proof (getViews_all_cached _ _ _ _ _ Hrun) as Hall.
  destruct (getViews_effect _ _ _ _ _ Hrun) as (Hi & Hs & _ & Hviews).
  repeat split; try assumption.
  now apply getViews_hits.
Qed.

(** X17.  [create] does not invalidate the framebuffer view cache: a view
    cached before a second [create], successful or not, is still the one
    [getVkImageViewForFramebuffer] returns afterwards, and no view is
    created for the new image. *)
Theorem create_keeps_cached_views (dev : DeviceState) (self : Texture)
    (desc : TextureDesc.t) (level : N) (v : VulkanImageView)
    (r : Result.t) (self' : Texture) (dev' : DeviceState) :
  cachedView self level = Some v ->
  create dev self desc = (r, self', dev') ->
  cachedView self' level = Some v
  /\ getVkImageViewForFramebuffer dev' self' level
     = Some (vkImageView_ v, self', dev').
Proof.
  intros Hv Hc.
  pose proof (create_any dev self desc) as Hany. rewrite Hc in Hany.
  destruct Hany as (Hcache & _).
  assert (Hv' : cachedView self' level = Some v).
  { unfold cachedView in *. now rewrite Hcache. }
  split; [exact Hv'|]. now apply getView_hit.
Qed.

(** X18.  The framebuffer view is created in the format
    [textureFormatToVkFormat] gives for the descriptor, while the image of a
    created texture has the closest supported depth-stencil format when the
    descriptor's format is a depth or stencil format: the two agree for
    every other format. *)
Theorem framebuffer_view_format (dev0 dev : DeviceState) (self0 self : Texture)
    (desc : TextureDesc.t) (r : Result.t) (level : N)
    (h : VkHandle) (self1 : Texture) (dev1 : DeviceState) :
  create dev0 self0 desc = (r, self, dev) ->
  Result.isOk r = true ->
  cachedView self level = None ->
  getVkImageViewForFramebuffer dev self level = Some (h, self1, dev1) ->
  exists v,
    createdViews dev1 = createdViews dev ++ [v]
    /\ h = vkImageView_ v
    /\ viewImage_ v = getVkImage self
    /\ viewFormat_ v = textureFormatToVkFormat (TextureDesc.format desc)
    /\ getVkFormat self
       = (if isDepthOrStencilFormat (TextureDesc.format desc)
          then getClosestDepthStencilFormat (TextureDesc.format desc)
          else textureFormatToVkFormat (TextureDesc.format desc))
    /\ (isDepthOrStencilFormat (TextureDesc.format desc) = false ->
        viewFormat_ v = getVkFormat self).
Proof.
  intros Hc Hok Hmiss Hcall.
  destruct (create_ok_objects dev0 self0 desc r self dev Hc Hok)
    as (image & view & Hself & _ & Himage & _).
  destruct (getVkImageViewForFramebuffer_call _ _ _ _ _ _ Hcall)
    as ((v1 & Hv1 & Hh) & _ & _ & _ & _ & Hnew).
  destruct (Hnew Hmiss) as (v & Hviews & Himg & _ & Hfmt).
  assert (Hvv : v1 = v).
  { destruct (getView_call _ _ _ _ _ _ Hcall)
      as [(v0 & Hhit & _) | (t & v2 & _ & _ & Hview & _ & Hc2 & _)];
      [congruence|].
    apply createImageView_some in Hview as (_ & Hviews2 & _).
    rewrite Hviews in Hviews2. apply app_inv_head in Hviews2.
    inversion Hviews2; subst. congruence. }
  subst v1. exists v.
  assert (Hd : TextureDesc.format (desc_ self) = TextureDesc.format desc)
    by (rewrite Hself; reflexivity).
  assert (Hf : getVkFormat self
               = (if isDepthOrStencilFormat (TextureDesc.format desc)
                  then getClosestDepthStencilFormat (TextureDesc.format desc)
                  else textureFormatToVkFormat (TextureDesc.format desc))).
  { rewrite Hself. unfold getVkFormat. cbn [texture_ image_]. now rewrite Himage. }
  rewrite Hd in Hfmt.
  repeat split; try assumption.
  intros Hnd. rewrite Hf, Hnd. exact Hfmt.
Qed.

(** X19.  The level counter wraps: for the largest [uint32_t] level,
    2^32 - 1, outside the cache, [level + 1] is 0, the vector is emptied
    instead of grown, the store at the level is out of range and the
    behaviour is undefined. *)
Theorem getVkImageViewForFramebuffer_level_wraps (dev : DeviceState)
    (self : Texture) (level : N) :
  level = 2 ^ 32 - 1 ->
  N.of_nat (length (imageViewForFramebuffer_ self)) <= level ->
  getVkImageViewForFramebuffer dev self level = None.
Proof.
  intros Hmax Hlen. assert (Hbig : 2 ^ 32 - 1 <= level) by lia. clear Hmax.
  unfold getVkImageViewForFramebuffer.
  rewrite (lookup_ge_None_2 (imageViewForFramebuffer_ self) (N.to_nat level)) by lia.
  destruct (texture_ self) as [t|]; [|reflexivity].
  destruct (createImageView _ _ _ _ _ _ _ _ _ _) as [view dev1].
  apply N.leb_le in Hlen. rewrite Hlen. rewrite length_resize.
  assert (Hu : u32 (level + 1) <= level).
  { unfold u32. change (2 ^ 32) with 4294967296 in *.
    zify. Z.to_euclidean_division_equations. lia. }
  rewrite N2Nat.id. apply N.leb_le in Hu. now rewrite Hu.
Qed.

End MoreTextureProperties.

(** * Examples on the sample configuration *)

(** An escaping range with a non-null pointer on the 2x2 sample. *)
Lemma upload_range_escapes_witness :
  upload (ext := sampleExternals) packedMemory (deviceAfterCreate sampleDesc)
    (created sampleDesc) wideRange 100 8
  = Some (Result.mk Result.RangeOutOfBounds "", deviceAfterCreate sampleDesc).
Proof.
  exact (upload_range_escapes (ext := sampleExternals) packedMemory
           (deviceAfterCreate sampleDesc) (created sampleDesc) wideRange 100 8
           eq_refl).
Defined.

(** The same escaping range with the null pointer: success, not
    [RangeOutOfBounds]. *)
Lemma upload_rejects_escaping_range_counterexample :
  rangeInBounds (created sampleDesc) wideRange = false
  /\ upload (ext := sampleExternals) packedMemory (deviceAfterCreate sampleDesc)
       (created sampleDesc) wideRange 0 8
     = Some (ResultOk, deviceAfterCreate sampleDesc)
  /\ Result.code ResultOk <> Result.RangeOutOfBounds.
Proof. repeat split. discriminate. Qed.

(** Four samples and two mip levels are rejected. *)
Lemma create_rejects_multisampled_witness :
  exists r self',
    create (ext := sampleExternals) emptyDevice (newTexture multisampledMipsDesc)
      multisampledMipsDesc = (r, self', emptyDevice)
    /\ Result.isOk r = false
    /\ Result.code r = Result.ArgumentOutOfRange.
Proof.
  apply (create_rejects_multisampled (ext := sampleExternals) emptyDevice
           (newTexture multisampledMipsDesc) multisampledMipsDesc).
  - reflexivity.
  - left. reflexivity.
Defined.

(** Four samples and a mip-level count of 0, which is not 1: accepted, and
    an image is created. *)
Lemma create_multisampled_zero_mips_counterexample :
  1 < TextureDesc.numSamples multisampledNoMipsDesc
  /\ TextureDesc.numMipLevels multisampledNoMipsDesc <> 1
  /\ Result.code
       (fst (fst (create (ext := sampleExternals) emptyDevice
                    (newTexture multisampledNoMipsDesc) multisampledNoMipsDesc)))
     = Result.Ok
  /\ length (createdImages
               (snd (create (ext := sampleExternals) emptyDevice
                       (newTexture multisampledNoMipsDesc) multisampledNoMipsDesc)))
     = 1%nat.
Proof. repeat split. discriminate. Qed.

(** A descriptor with no mip level and no usage bit is created with one mip
    level and usage [Sampled]. *)
Lemma create_normalizes_zero_witness :
  getNumMipLevels (created zeroDesc) = 1
  /\ getUsage (created zeroDesc) = TextureDesc.TextureUsageBits.Sampled.
Proof.
  destruct (create_normalizes_zero (ext := sampleExternals) emptyDevice
              (newTexture zeroDesc) zeroDesc ResultOk (created zeroDesc)
              (deviceAfterCreate zeroDesc) eq_refl) as [Hmips Husage].
  split.
  - apply Hmips; reflexivity.
  - apply Husage; reflexivity.
Defined.

(** An unsupported type with a mip-level count of 0 is refused before the
    count is corrected, and [getNumMipLevels] reports 0 afterwards.  Four
    samples, two mip levels and no usage bit are refused before the usage
    is corrected, and [getUsage] reports the empty set afterwards. *)
Lemma create_normalizes_zero_counterexample :
  TextureDesc.numMipLevels invalidZeroDesc = 0
  /\ Result.code
       (fst (fst (create (ext := sampleExternals) emptyDevice
                    (newTexture invalidZeroDesc) invalidZeroDesc)))
     = Result.Unimplemented
  /\ getNumMipLevels (created invalidZeroDesc) = 0
  /\ getNumMipLevels (created invalidZeroDesc) <> 1
  /\ TextureDesc.usage multisampledNoUsageDesc = 0
  /\ Result.code
       (fst (fst (create (ext := sampleExternals) emptyDevice
                    (newTexture multisampledNoUsageDesc) multisampledNoUsageDesc)))
     = Result.ArgumentOutOfRange
  /\ getUsage (created multisampledNoUsageDesc) = 0
  /\ getUsage (created multisampledNoUsageDesc)
     <> TextureDesc.TextureUsageBits.Sampled.
Proof. repeat split; discriminate. Qed.

(** A cube with four samples is accepted. *)
Lemma create_cube_3d_single_sampled_witness :
  passesChecks (ext := sampleExternals) multisampledCubeDesc = true
  /\ exists self' dev',
       create (ext := sampleExternals) emptyDevice (newTexture multisampledCubeDesc)
         multisampledCubeDesc = (ResultOk, self', dev').
Proof.
  apply (proj2 (proj2 (create_cube_3d_single_sampled (ext := sampleExternals)
                         emptyDevice (newTexture multisampledCubeDesc)
                         multisampledCubeDesc))).
  - reflexivity.
  - reflexivity.
  - reflexivity.
  - vm_compute. discriminate.
  - intros d img. reflexivity.
  - intros d view. reflexivity.
Defined.

(** Two layers of two mip levels each: the sources lie 20 bytes apart and
    go to layers 0 and 1. *)
Lemma upload_layers_in_order_witness :
  exists dev' new,
    upload (ext := sampleExternals) packedMemory (deviceAfterCreate sampleArrayDesc)
      (created sampleArrayDesc) twoLayerRange 100 0 = Some (ResultOk, dev')
    /\ stagedTransfers dev'
       = stagedTransfers (deviceAfterCreate sampleArrayDesc) ++ new
    /\ map transferData new = [CallerData 100; CallerData 120]
    /\ mipChainBytes (ext := sampleExternals) (desc_ (created sampleArrayDesc))
         twoLayerRange = 20
    /\ map transferLayer new = [Some 0; Some 1].
Proof.
  destruct (upload_layers_in_order (ext := sampleExternals) packedMemory
              (deviceAfterCreate sampleArrayDesc) (created sampleArrayDesc)
              (primary sampleArrayDesc) twoLayerRange 100 0)
    as (dev' & new & Hupload & Hstaged & _ & _ & Hdata & _ & Hlayers & _).
  - discriminate.
  - reflexivity.
  - reflexivity.
  - vm_compute. split; discriminate.
  - vm_compute. discriminate.
  - left. reflexivity.
  - reflexivity.
  - reflexivity.
  - exists dev', new. split; [exact Hupload|]. split; [exact Hstaged|].
    split; [exact (Hdata eq_refl)|]. split; [reflexivity|].
    apply Hlayers.
    + reflexivity.
    + vm_compute. discriminate.
Defined.

(** Two layers with a mip span of 0, a range the texture accepts: the sum
    over the levels 0 .. numMipLevels-1 is 0, and the source of layer 1
    starts 16 bytes, the size of the level-0 slice, after the caller's
    pointer. *)
Lemma upload_layers_in_order_counterexample :
  rangeInBounds (created sampleArrayDesc) noMipsTwoLayerRange = true
  /\ 2 <= TextureRangeDesc.numLayers noMipsTwoLayerRange
  /\ mipChainBytes (ext := sampleExternals) (desc_ (created sampleArrayDesc))
       noMipsTwoLayerRange = 0
  /\ fst <$> upload (ext := sampleExternals) packedLayers
               (deviceAfterCreate sampleArrayDesc) (created sampleArrayDesc)
               noMipsTwoLayerRange 100 0
     = Some ResultOk
  /\ map transferData
       (stagedAfter
          (upload (ext := sampleExternals) packedLayers
             (deviceAfterCreate sampleArrayDesc) (created sampleArrayDesc)
             noMipsTwoLayerRange 100 0))
     = [CallerData 100; CallerData 116]
  /\ CallerData 116
     <> CallerData
          (100 + 1 * mipChainBytes (ext := sampleExternals)
                       (desc_ (created sampleArrayDesc)) noMipsTwoLayerRange).
Proof.
  split; [reflexivity|]. split; [vm_compute; discriminate|].
  split; [reflexivity|]. split; [reflexivity|]. split; [reflexivity|].
  vm_compute. discriminate.
Qed.




(** The null pointer handed to [uploadCube] and to [upload]. *)
Lemma uploadCube_passes_null_data_witness :
  exists dev',
    uploadCube (ext := sampleExternals) (deviceAfterCreate sampleCubeDesc)
      (created sampleCubeDesc) fullRange NegY 0 0 = Some (ResultOk, dev')
    /\ stagedTransfers dev' <> stagedTransfers (deviceAfterCreate sampleCubeDesc)
    /\ upload (ext := sampleExternals) packedMemory (deviceAfterCreate sampleCubeDesc)
         (created sampleCubeDesc) fullRange 0 0
       = Some (ResultOk, deviceAfterCreate sampleCubeDesc).
Proof.
  destruct (uploadCube_passes_null_data (ext := sampleExternals) packedMemory
              (deviceAfterCreate sampleCubeDesc) (created sampleCubeDesc)
              (primary sampleCubeDesc) fullRange NegY 0 eq_refl eq_refl)
    as (Hcube & Hnew & Hupload).
  eexists. split; [apply (Hcube 0)|]. split; [exact Hnew | exact Hupload].
Defined.

(** Two calls for mip level 1 of the sample array texture. *)
Lemma framebuffer_view_is_cached_witness :
  exists h self1 dev1,
    getVkImageViewForFramebuffer (ext := sampleExternals)
      (deviceAfterCreate sampleArrayDesc) (created sampleArrayDesc) 1
    = Some (h, self1, dev1)
    /\ length (createdViews dev1)
       = S (length (createdViews (deviceAfterCreate sampleArrayDesc)))
    /\ getVkImageViewForFramebuffer (ext := sampleExternals) dev1 self1 1
       = Some (h, self1, dev1).
Proof.
  destruct (createImageView (ext := sampleExternals)
              (deviceAfterCreate sampleArrayDesc)
              (image_ (primary sampleArrayDesc)) VK_IMAGE_VIEW_TYPE_2D
              (textureFormatToVkFormat (Externals := sampleExternals)
                 (TextureDesc.format (desc_ (created sampleArrayDesc))))
              (getImageAspectFlags (image_ (primary sampleArrayDesc))) 1 1 0 1 "")
    as [[v|] dev1] eqn:Hview; [|discriminate Hview].
  destruct (proj2 (framebuffer_view_is_cached (ext := sampleExternals)
                     (deviceAfterCreate sampleArrayDesc)
                     (created sampleArrayDesc) 1)
              (primary sampleArrayDesc) v dev1 eq_refl eq_refl eq_refl Hview)
    as (self1 & Hcall & Hviews & _ & _ & _ & _ & _ & _ & _ & Hagain).
  exists (vkImageView_ v), self1, dev1. split; [exact Hcall|]. split.
  - rewrite Hviews, length_app. cbn. lia.
  - exact (Hagain [] self1 dev1 eq_refl).
Defined.

(** ** Examples for the further properties *)

(** Four samples and two mip levels: rejected, nothing allocated. *)
Lemma create_rejection_allocates_nothing_witness :
  exists r self',
    create (ext := sampleExternals) emptyDevice (newTexture multisampledMipsDesc)
      multisampledMipsDesc = (r, self', emptyDevice)
    /\ Result.isOk r = false
    /\ Result.code r = Result.ArgumentOutOfRange
    /\ texture_ self' = None
    /\ imageViewForFramebuffer_ self' = [].
Proof.
  exact (proj1 (create_rejection_allocates_nothing (ext := sampleExternals)
                  emptyDevice (newTexture multisampledMipsDesc)
                  multisampledMipsDesc) eq_refl).
Defined.

(** A rejected second [create] on the created 2x2 sample: the getters report
    the rejected request, the image is the one of the first [create]. *)
Lemma create_overwrites_descriptor_witness :
  getSamples
    (snd (fst (create (ext := sampleExternals) (deviceAfterCreate sampleDesc)
                 (created sampleDesc) multisampledMipsDesc))) = 4
  /\ getVkImage
       (snd (fst (create (ext := sampleExternals) (deviceAfterCreate sampleDesc)
                    (created sampleDesc) multisampledMipsDesc)))
     = getVkImage (created sampleDesc).
Proof.
  destruct (create_overwrites_descriptor (ext := sampleExternals)
              (deviceAfterCreate sampleDesc) (created sampleDesc)
              multisampledMipsDesc)
    as (_ & _ & _ & Hsamples & _ & Hkept).
  split; [exact Hsamples | exact (proj2 (Hkept eq_refl))].
Defined.

(** The 2x2 sample: one image, one view, no transfer. *)
Lemma create_device_effect_witness :
  stagedTransfers (deviceAfterCreate sampleDesc) = []
  /\ exists images views,
       createdImages (deviceAfterCreate sampleDesc) = [] ++ images
       /\ createdViews (deviceAfterCreate sampleDesc) = [] ++ views
       /\ length images = 1%nat /\ length views = 1%nat.
Proof.
  destruct (create_device_effect (ext := sampleExternals) emptyDevice
              (newTexture sampleDesc) sampleDesc)
    as (Hstaged & images & views & Himages & Hviews & _ & Hone).
  split; [exact Hstaged|]. exists images, views.
  split; [exact Himages|]. split; [exact Hviews|]. exact (Hone eq_refl).
Defined.

(** The image of the sample cube: six layers, cube-compatible. *)
Lemma create_image_matches_descriptor_witness :
  numLayers_ (image_ (primary sampleCubeDesc)) = 6
  /\ createFlags_ (image_ (primary sampleCubeDesc))
     = VK_IMAGE_CREATE_CUBE_COMPATIBLE_BIT
  /\ viewType_ (imageView_ (primary sampleCubeDesc)) = VK_IMAGE_VIEW_TYPE_CUBE.
Proof.
  destruct (create_image_matches_descriptor (ext := sampleExternals) emptyDevice
              (newTexture sampleCubeDesc) sampleCubeDesc ResultOk
              (created sampleCubeDesc) (deviceAfterCreate sampleCubeDesc)
              eq_refl eq_refl)
    as (t & Ht & _ & _ & _ & _ & Hlayers & Hflags & _ & _ & _ & Hview & _).
  assert (Hp : primary sampleCubeDesc = t)
    by (unfold primary; rewrite Ht; reflexivity).
  rewrite Hp. split; [exact Hlayers|]. split; [exact Hflags | exact Hview].
Defined.

(** A descriptor with no usage bit yields a sampled image. *)
Lemma create_usage_flags_witness :
  getUsage (created zeroDesc) = TextureDesc.TextureUsageBits.Sampled
  /\ hasFlag (usageFlags_ (image_ (primary zeroDesc))) VK_IMAGE_USAGE_SAMPLED_BIT
     = true.
Proof.
  destruct (create_usage_flags (ext := sampleExternals) emptyDevice
              (newTexture zeroDesc) zeroDesc ResultOk (created zeroDesc)
              (deviceAfterCreate zeroDesc) eq_refl eq_refl)
    as (t & Ht & _ & _ & _ & _ & _ & _ & _ & Hzero).
  assert (Hp : primary zeroDesc = t)
    by (unfold primary; rewrite Ht; reflexivity).
  rewrite Hp. exact (Hzero eq_refl).
Defined.

(** The primary view of the 2x2 sample has the colour aspect. *)
Lemma create_primary_view_aspect_witness :
  aspectMask_ (imageView_ (primary sampleDesc)) = VK_IMAGE_ASPECT_COLOR_BIT.
Proof.
  destruct (create_primary_view_aspect (ext := sampleExternals) emptyDevice
              (newTexture sampleDesc) sampleDesc ResultOk (created sampleDesc)
              (deviceAfterCreate sampleDesc) eq_refl eq_refl)
    as (t & Ht & Haspect).
  assert (Hp : primary sampleDesc = t)
    by (unfold primary; rewrite Ht; reflexivity).
  rewrite Hp. exact Haspect.
Defined.

(** A device that refuses the image, one that returns a null image and one
    that refuses the view. *)
Lemma create_device_failures_witness :
  (exists self' dev',
     create (ext := deviceExternals
                      (Result.mk Result.InvalidOperation "out of memory", false)
                      true)
       emptyDevice (newTexture sampleDesc) sampleDesc
     = (Result.mk Result.InvalidOperation "out of memory", self', dev')
     /\ texture_ self' = None
     /\ createdViews dev' = [])
  /\ (exists self',
        create (ext := deviceExternals (ResultOk, false) true)
          emptyDevice (newTexture sampleDesc) sampleDesc
        = (Result.mk Result.InvalidOperation "Cannot create VulkanImage",
           self', emptyDevice)
        /\ texture_ self' = None)
  /\ (exists self' dev' image,
        create (ext := deviceExternals (ResultOk, true) false)
          emptyDevice (newTexture sampleDesc) sampleDesc
        = (Result.mk Result.InvalidOperation "Cannot create VulkanImageView",
           self', dev')
        /\ texture_ self' = None
        /\ createdImages dev' = [] ++ [image]
        /\ createdViews dev' = []).
Proof.
  split; [|split].
  - apply (proj1 (create_device_failures
                    (ext := deviceExternals
                              (Result.mk Result.InvalidOperation "out of memory",
                               false) true)
                    emptyDevice (newTexture sampleDesc) sampleDesc eq_refl)
             (Result.mk Result.InvalidOperation "out of memory") false).
    + reflexivity.
    + intros img. reflexivity.
  - apply (proj1 (proj2 (create_device_failures
                           (ext := deviceExternals (ResultOk, false) true)
                           emptyDevice (newTexture sampleDesc) sampleDesc eq_refl))
             ResultOk).
    + reflexivity.
    + intros img. reflexivity.
  - apply (proj2 (proj2 (create_device_failures
                           (ext := deviceExternals (ResultOk, true) false)
                           emptyDevice (newTexture sampleDesc) sampleDesc eq_refl))
             ResultOk).
    + reflexivity.
    + intros img. reflexivity.
    + intros d view. reflexivity.
Defined.


(** An aligned upload of the whole 2x2 sample records one transfer. *)
Lemma upload_device_effect_witness :
  createdImages
    (stage (layerTransfer (created sampleDesc) (primary sampleDesc) fullRange 0
              (CallerData 100))
       (deviceAfterCreate sampleDesc))
  = createdImages (deviceAfterCreate sampleDesc)
  /\ exists new,
       stagedTransfers
         (stage (layerTransfer (created sampleDesc) (primary sampleDesc)
                   fullRange 0 (CallerData 100))
            (deviceAfterCreate sampleDesc))
       = stagedTransfers (deviceAfterCreate sampleDesc) ++ new
       /\ length new = 1%nat.
Proof.
  destruct (upload_device_effect (ext := sampleExternals) packedMemory
              (deviceAfterCreate sampleDesc) (created sampleDesc) fullRange
              100 0 ResultOk
              (stage (layerTransfer (created sampleDesc) (primary sampleDesc)
                        fullRange 0 (CallerData 100))
                 (deviceAfterCreate sampleDesc))
              eq_refl)
    as (Himages & _ & new & Hnew & Hlen & _).
  split; [exact Himages|]. exists new. split; [exact Hnew | exact Hlen].
Defined.


(** A layer count of 0 on the 2x2 sample. *)
Lemma upload_zero_layers_is_one_layer_witness :
  upload (ext := sampleExternals) packedMemory (deviceAfterCreate sampleDesc)
    (created sampleDesc) (rangeWithLayers 0 0 fullRange) 100 0
  = upload (ext := sampleExternals) packedMemory (deviceAfterCreate sampleDesc)
      (created sampleDesc) (rangeWithLayers 0 1 fullRange) 100 0.
Proof.
  exact (upload_zero_layers_is_one_layer (ext := sampleExternals) packedMemory
           (deviceAfterCreate sampleDesc) (created sampleDesc) fullRange 100 0
           eq_refl).
Defined.

(** Strides 0 and 8 on the 2x2 sample, whose packed rows are 8 bytes. *)
Lemma upload_aligned_ignores_stride_witness :
  upload (ext := sampleExternals) packedMemory (deviceAfterCreate sampleDesc)
    (created sampleDesc) fullRange 100 0
  = upload (ext := sampleExternals) packedMemory (deviceAfterCreate sampleDesc)
      (created sampleDesc) fullRange 100 8.
Proof.
  exact (proj1 (upload_aligned_ignores_stride (ext := sampleExternals)
                  packedMemory (deviceAfterCreate sampleDesc)
                  (created sampleDesc) fullRange 100)
           0 8 eq_refl eq_refl).
Defined.

(** A texture that was never created. *)
Lemma texture_without_image_witness :
  upload (ext := sampleExternals) packedMemory emptyDevice
    (newTexture sampleArrayDesc) fullRange 100 0 = None
  /\ uploadCube (ext := sampleExternals) emptyDevice
       (newTexture sampleArrayDesc) fullRange PosX 100 0 = None
  /\ getVkImageViewForFramebuffer (ext := sampleExternals) emptyDevice
       (newTexture sampleArrayDesc) 0 = None
  /\ generateMipmap (fun _ => 5) [] (newTexture sampleArrayDesc) = None
  /\ getVkImage (newTexture sampleArrayDesc) = VK_NULL_HANDLE.
Proof.
  destruct (texture_without_image (ext := sampleExternals) packedMemory
              emptyDevice (newTexture sampleArrayDesc) eq_refl)
    as (Hupload & Hcube & Hview & Hmips & Himage & _).
  split; [apply Hupload; [discriminate | reflexivity]|].
  split; [apply Hcube; reflexivity|].
  split; [apply Hview; reflexivity|].
  split; [apply Hmips; reflexivity | exact Himage].
Defined.

(** Face NegY of the sample cube goes to layer 3, whatever the layer of the
    range. *)
Lemma uploadCube_is_upload_to_face_layer_witness :
  upload (ext := sampleExternals) packedMemory (deviceAfterCreate sampleCubeDesc)
    (created sampleCubeDesc) (rangeWithLayers 3 1 fullRange) 100 0
  = uploadCube (ext := sampleExternals) (deviceAfterCreate sampleCubeDesc)
      (created sampleCubeDesc) fullRange NegY 100 0.
Proof.
  refine (proj1 (uploadCube_is_upload_to_face_layer (ext := sampleExternals)
                   packedMemory (deviceAfterCreate sampleCubeDesc)
                   (created sampleCubeDesc) (primary sampleCubeDesc) fullRange
                   NegY 100 0 eq_refl eq_refl _ eq_refl _ eq_refl eq_refl)).
  - discriminate.
  - vm_compute. discriminate.
Defined.

(** The padded 2x2 image with stride 12: one fresh buffer of 16 bytes. *)
Lemma upload_unaligned_repacks_rows_witness :
  exists dev' new buf,
    upload (ext := sampleExternals) paddedMemory (deviceAfterCreate sampleDesc)
      (created sampleDesc) fullRange 200 12 = Some (ResultOk, dev')
    /\ stagedTransfers dev' = stagedTransfers (deviceAfterCreate sampleDesc) ++ new
    /\ map transferData new = [LinearData buf]
    /\ length buf = 16%nat
    /\ buf !! 9%nat = Some Byte.x12.
Proof.
  destruct (upload_unaligned_repacks_rows (ext := sampleExternals) paddedMemory
              (deviceAfterCreate sampleDesc) (created sampleDesc)
              (primary sampleDesc) fullRange 200 12)
    as (dev' & new & bufs & Hupload & Hnew & Hdata & Hlen & Hbufs).
  - discriminate.
  - reflexivity.
  - reflexivity.
  - vm_compute. discriminate.
  - vm_compute. discriminate.
  - reflexivity.
  - reflexivity.
  - reflexivity.
  - destruct bufs as [|buf [|]]; try discriminate Hlen.
    exists dev', new, buf. split; [exact Hupload|]. split; [exact Hnew|].
    split; [exact Hdata|].
    destruct (Hbufs 0 buf eq_refl) as [Hbuf Hbytes].
    split; [exact Hbuf|].
    apply (Hbytes 1 1); reflexivity.
Defined.



(** The first call for mip level 1 of the sample array texture creates one
    2D view on its image and grows the cache to two entries. *)
Lemma getVkImageViewForFramebuffer_call_witness :
  length (imageViewForFramebuffer_ viewedTexture) = 2%nat
  /\ exists v,
       createdViews viewedDevice
       = createdViews (deviceAfterCreate sampleArrayDesc) ++ [v]
       /\ viewImage_ v = getVkImage (created sampleArrayDesc)
       /\ viewType_ v = VK_IMAGE_VIEW_TYPE_2D.
Proof.
  destruct (getVkImageViewForFramebuffer_call (ext := sampleExternals)
              (deviceAfterCreate sampleArrayDesc) (created sampleArrayDesc) 1
              viewedHandle viewedTexture viewedDevice eq_refl)
    as (_ & _ & _ & Hlen & _ & Hmiss).
  split; [exact Hlen|].
  destruct (Hmiss eq_refl) as (v & Hviews & Himage & Htype & _).
  exists v. split; [exact Hviews|]. split; [exact Himage | exact Htype].
Defined.

(** Levels 1, 0 and 1 again on the sample array texture: two views, and a
    second pass that changes nothing. *)
Lemma getViews_second_pass_witness :
  exists self2 dev2,
    getViews (ext := sampleExternals) (deviceAfterCreate sampleArrayDesc)
      (created sampleArrayDesc) [1; 0; 1] = Some (self2, dev2)
    /\ getViews (ext := sampleExternals) dev2 self2 [1; 0; 1] = Some (self2, dev2)
    /\ createdImages dev2 = createdImages (deviceAfterCreate sampleArrayDesc).
Proof.
  destruct (getViews (ext := sampleExternals) (deviceAfterCreate sampleArrayDesc)
              (created sampleArrayDesc) [1; 0; 1])
    as [[self2 dev2]|] eqn:Hrun; [|discriminate Hrun].
  destruct (getViews_second_pass (ext := sampleExternals)
              (deviceAfterCreate sampleArrayDesc) (created sampleArrayDesc)
              [1; 0; 1] self2 dev2 Hrun)
    as (_ & Hagain & Himages & _).
  exists self2, dev2. split; [reflexivity|]. split; [exact Hagain | exact Himages].
Defined.

(** The view cached for level 1 survives a second [create] with the cube
    descriptor. *)
Lemma create_keeps_cached_views_witness :
  exists v self' dev',
    cachedView viewedTexture 1 = Some v
    /\ create (ext := sampleExternals) viewedDevice viewedTexture sampleCubeDesc
       = (ResultOk, self', dev')
    /\ getVkImageViewForFramebuffer (ext := sampleExternals) dev' self' 1
       = Some (vkImageView_ v, self', dev').
Proof.
  destruct (cachedView viewedTexture 1) as [v|] eqn:Hv; [|discriminate Hv].
  exists v,
    (snd (fst (create (ext := sampleExternals) viewedDevice viewedTexture
                 sampleCubeDesc))),
    (snd (create (ext := sampleExternals) viewedDevice viewedTexture
            sampleCubeDesc)).
  split; [reflexivity|]. split; [reflexivity|].
  exact (proj2 (create_keeps_cached_views (ext := sampleExternals) viewedDevice
                  viewedTexture sampleCubeDesc 1 v ResultOk _ _ Hv eq_refl)).
Defined.

(** The sample format is no depth format: the framebuffer view has the
    format of the image. *)
Lemma framebuffer_view_format_witness :
  exists v,
    createdViews viewedDevice
    = createdViews (deviceAfterCreate sampleArrayDesc) ++ [v]
    /\ viewedHandle = vkImageView_ v
    /\ viewFormat_ v = getVkFormat (created sampleArrayDesc).
Proof.
  destruct (framebuffer_view_format (ext := sampleExternals) emptyDevice
              (deviceAfterCreate sampleArrayDesc) (newTexture sampleArrayDesc)
              (created sampleArrayDesc) sampleArrayDesc ResultOk 1
              viewedHandle viewedTexture viewedDevice
              eq_refl eq_refl eq_refl eq_refl)
    as (v & Hviews & Hh & _ & _ & _ & Hsame).
  exists v. split; [exact Hviews|]. split; [exact Hh | exact (Hsame eq_refl)].
Defined.

(** Level 2^32 - 1 on the created 2x2 sample, whose cache is empty. *)
Lemma getVkImageViewForFramebuffer_level_wraps_witness :
  getVkImageViewForFramebuffer (ext := sampleExternals)
    (deviceAfterCreate sampleDesc) (created sampleDesc) (2 ^ 32 - 1) = None.
Proof.
  apply (getVkImageViewForFramebuffer_level_wraps (ext := sampleExternals)
           (deviceAfterCreate sampleDesc) (created sampleDesc) (2 ^ 32 - 1)).
  - reflexivity.
  - vm_compute. discriminate.
Defined.

(** The pixel at (5, 3): 5 xor 3 is 6. *)
Lemma xorPixel_channels_witness :
  N.shiftr (xorPixel 5 3) 24 = 255
  /\ N.land (N.shiftr (xorPixel 5 3) 16) 255 = 6
  /\ N.land (N.shiftr (xorPixel 5 3) 8) 255 = 6
  /\ N.land (xorPixel 5 3) 255 = 6
  /\ xorPixel 5 3 = xorPixel 3 5.
Proof.
  apply (xorPixel_channels 5 3); reflexivity.
Defined.

(** The 256x256 pattern of the sample. *)
Lemma xorPattern_filled_witness :
  exists pixels,
    xorPattern texWidth texHeight = Some pixels
    /\ N.of_nat (length pixels) = 65536
    /\ forall x y, x < texWidth -> y < texHeight ->
         pixels !! N.to_nat (y * texWidth + x) = Some (xorPixel x y).
Proof.
  apply (xorPattern_filled texWidth texHeight); reflexivity.
Defined.
